(** * openguard: cache-aside config/secret store and event relay

    A shallow embedding of [database/operations.py] (the per-guild
    configuration, event-toggle and API-key accessors) and of the relay
    part of [cogs/logging_cog.py] (toggle check, truncation of message
    content, webhook delivery).

    Python values are embedded as the inductive [pyval]; [async]
    functions become functions in a state-and-exception monad [M W]
    over a world [W]; the imported modules ([.cache], [.connection],
    [json], [datetime], [cryptography.fernet]) are an explicit
    interface, so that every accessor is defined once and can be run
    against an arbitrary environment or against the reference
    environment [Env.world]. *)

From Stdlib Require Import ZArith Bool Ascii String List Lia.
From stdpp Require Import base option gmap strings list fin_maps pretty.
Import ListNotations.
Local Open Scope string_scope.
Local Open Scope Z_scope.

Set Warnings "-register-all".

(** ** Python values *)

(** [datetime.datetime]: the fields of a (naive or aware) timestamp. *)
Record datetime := mk_datetime {
  dt_year : Z; dt_month : Z; dt_day : Z;
  dt_hour : Z; dt_minute : Z; dt_second : Z;
  dt_utcoffset : option Z (* minutes east of UTC; [None] is naive *)
}.

(** The values the accessors handle: JSON documents (a dict has string
    keys and keeps insertion order) and [datetime] objects, which
    [json.dumps] does not serialise by itself. *)
Inductive pyval :=
| VNone
| VBool (b : bool)
| VInt (n : Z)
| VStr (s : string)
| VList (l : list pyval)
| VDict (kvs : list (string * pyval))
| VDatetime (d : datetime).

(** A database row ([asyncpg.Record], [dict(result)]) and a keyword
    dictionary: column name to value. *)
Abbreviation row := (list (string * pyval)).

(** Python truthiness ([if x:], [if not x:]). *)
Definition truthy (v : pyval) : bool :=
  match v with
  | VNone => false
  | VBool b => b
  | VInt n => negb (n =? 0)
  | VStr s => negb (String.eqb s "")
  | VList l => match l with [] => false | _ => true end
  | VDict kvs => match kvs with [] => false | _ => true end
  | VDatetime _ => true
  end.

(** [d.get(k)] on a dict or record: first binding of [k]. *)
Fixpoint dict_get (k : string) (d : row) : option pyval :=
  match d with
  | [] => None
  | (k', v) :: d' => if String.eqb k k' then Some v else dict_get k d'
  end.

(** [d[k] = v]: replace the binding in place, or append a new one. *)
Fixpoint dict_set (k : string) (v : pyval) (d : row) : row :=
  match d with
  | [] => [(k, v)]
  | (k', v') :: d' =>
      if String.eqb k k' then (k, v) :: d' else (k', v') :: dict_set k v d'
  end.

(** The line feed. *)
Definition newline : string := String (ascii_of_nat 10) EmptyString.

(** [needle in haystack] for two [str]. *)
Fixpoint is_substring (needle hay : string) : bool :=
  String.prefix needle hay
  || match hay with
     | EmptyString => false
     | String _ hay' => is_substring needle hay'
     end.

(** ** Exceptions and the monad of [async] functions *)

Inductive exn :=
| StoreError (msg : string)      (* raised by the database driver *)
| CryptoError (msg : string)     (* [cryptography.fernet.InvalidToken] and the like *)
| JSONDecodeError
| TypeError
| KeyError (k : string)
| ValueError
| AttributeError
| OtherError (msg : string).

Inductive result (A : Type) :=
| Ok (a : A)
| Raised (e : exn).
Arguments Ok {A} a.
Arguments Raised {A} e.

(** A computation over a world [W]: returns or raises, and leaves a world. *)
Definition M (W A : Type) : Type := W -> result A * W.

Definition ret {W A} (a : A) : M W A := fun w => (Ok a, w).
Definition raise {W A} (e : exn) : M W A := fun w => (Raised e, w).
Definition bind {W A B} (m : M W A) (k : A -> M W B) : M W B :=
  fun w => match m w with
           | (Ok a, w') => k a w'
           | (Raised e, w') => (Raised e, w')
           end.

(** [try: body except <classes>: handler]; [catches e] tells whether
    exception [e] belongs to the listed classes. *)
Definition try_except {W A} (body : M W A) (catches : exn -> bool)
    (handler : exn -> M W A) : M W A :=
  fun w => match body w with
           | (Ok a, w') => (Ok a, w')
           | (Raised e, w') =>
               if catches e then handler e w' else (Raised e, w')
           end.

(** [except Exception as e]: every exception of the model is one. *)
Definition Exception (e : exn) : bool := true.

(** [except (json.JSONDecodeError, TypeError)]. *)
Definition JSONDecodeError_or_TypeError (e : exn) : bool :=
  match e with
  | JSONDecodeError | TypeError => true
  | _ => false
  end.

(** A pure call that may raise. *)
Definition lift_result {W A} (r : result A) : M W A := fun w => (r, w).

Declare Scope py_scope.
Delimit Scope py_scope with py.
Notation "x <- m ;; k" := (bind m (fun x => k))
  (at level 100, m at next level, k at level 200, right associativity) : py_scope.
Notation "m ;; k" := (bind m (fun _ => k))
  (at level 100, k at level 200, right associativity) : py_scope.
Local Open Scope py_scope.

(** The computation returned normally. *)
Definition returns {W A} (m : M W A) (w : W) : Prop :=
  exists a, fst (m w) = Ok a.

(** ** The imported modules *)

(** The tables of the store the accessors touch. *)
Inductive table :=
| guild_config
| guild_settings
| log_event_toggles
| botdetect_config
| guild_api_keys.

(** The SQL statements passed to [execute_query], one constructor per
    statement text, with the positional arguments [$1], [$2]:
    - [select_value t g k]: SELECT value FROM t WHERE guild_id = $1 AND key = $2
    - [select_key_value t g]: SELECT key, value FROM t WHERE guild_id = $1
    - [select_enabled g e]: SELECT enabled FROM log_event_toggles
        WHERE guild_id = $1 AND event_key = $2
    - [select_event_key_enabled g]: SELECT event_key, enabled
        FROM log_event_toggles WHERE guild_id = $1
    - [select_guild_api_key g]: SELECT * FROM guild_api_keys WHERE guild_id = $1 *)
Inductive statement :=
| select_value (t : table) (guild_id : Z) (key : string)
| select_key_value (t : table) (guild_id : Z)
| select_enabled (guild_id : Z) (event_key : string)
| select_event_key_enabled (guild_id : Z)
| select_guild_api_key (guild_id : Z).

(** The standard-library functions the accessors call. [None] stands
    for the exception the function raises: [TypeError] for
    [json.dumps], [json.JSONDecodeError] for [json.loads] and
    [ValueError] for [datetime.fromisoformat]. *)
Record PyLib := {
  json_dumps : pyval -> option string;
  json_loads : string -> option pyval;
  isoformat : datetime -> string;
  fromisoformat : string -> option datetime
}.

(** [from .cache import ...], [from .connection import ...] and the
    module-level [fernet] object, over a world [W]. Every call may
    return or raise, and may change the world. *)
Record Environment (W : Type) := {
  get_cache : string -> M W pyval;              (* [None] on a miss *)
  set_cache : string -> pyval -> M W unit;
  delete_cache : string -> M W unit;
  execute_query_one : statement -> M W (option row);          (* fetch_one=True *)
  execute_query_all : statement -> M W (option (list row));   (* fetch_all=True *)
  insert_or_update : table -> list string -> row -> M W bool;
  delete_record : table -> Z -> M W bool;       (* WHERE guild_id = $1 *)
  fernet_encrypt : string -> M W string;
  fernet_decrypt : string -> M W string
}.
Arguments get_cache {W} _ _ _.
Arguments set_cache {W} _ _ _ _.
Arguments delete_cache {W} _ _ _.
Arguments execute_query_one {W} _ _ _.
Arguments execute_query_all {W} _ _ _.
Arguments insert_or_update {W} _ _ _ _ _.
Arguments delete_record {W} _ _ _ _.
Arguments fernet_encrypt {W} _ _ _.
Arguments fernet_decrypt {W} _ _ _.

(** Modelled from the spec: [.models.GuildAPIKey], whose declaration
    is not part of the sources at hand; its fields are the keyword
    arguments of the constructor call in [get_guild_api_key]
    (tenant, provider, the two secrets, the two row timestamps). *)
Record GuildAPIKey := mk_GuildAPIKey {
  key_guild_id : pyval;
  key_api_provider : pyval;
  key_api_key : pyval;
  key_github_auth_info : pyval;
  key_created_at : pyval;
  key_updated_at : pyval
}.

Definition GuildAPIKey_fields : list string :=
  ["guild_id"; "api_provider"; "api_key"; "github_auth_info";
   "created_at"; "updated_at"].

(** [guild_key.__dict__]. *)
Definition GuildAPIKey_dict (g : GuildAPIKey) : pyval :=
  VDict [("guild_id", key_guild_id g);
         ("api_provider", key_api_provider g);
         ("api_key", key_api_key g);
         ("github_auth_info", key_github_auth_info g);
         ("created_at", key_created_at g);
         ("updated_at", key_updated_at g)].

(** The constructor applied to the unpacked mapping [cached]:
    [TypeError] unless [cached] is a mapping that binds the fields and
    nothing else. *)
Definition GuildAPIKey_kwargs (cached : pyval) : result GuildAPIKey :=
  match cached with
  | VDict kvs =>
      if forallb (fun kv => existsb (String.eqb (fst kv)) GuildAPIKey_fields) kvs
      then
        match dict_get "guild_id" kvs, dict_get "api_provider" kvs,
              dict_get "api_key" kvs, dict_get "github_auth_info" kvs,
              dict_get "created_at" kvs, dict_get "updated_at" kvs with
        | Some a, Some b, Some c, Some d, Some e, Some f =>
            Ok (mk_GuildAPIKey a b c d e f)
        | _, _, _, _, _, _ => Raised TypeError
        end
      else Raised TypeError
  | _ => Raised TypeError
  end.

(** ** database/operations.py *)

Section Operations.
Context {W : Type} (lib : PyLib) (env : Environment W).

(** [json.dumps(o)]. *)
Definition dumps (o : pyval) : M W string :=
  match json_dumps lib o with
  | Some s => ret s
  | None => raise TypeError
  end.

(** [json.loads(s)]: [TypeError] when [s] is not a [str]. *)
Definition loads (s : pyval) : M W pyval :=
  match s with
  | VStr text =>
      match json_loads lib text with
      | Some v => ret v
      | None => raise JSONDecodeError
      end
  | _ => raise TypeError
  end.

(** [json.dumps(o, default=f)]: the encoder hands every object it
    cannot serialise to [f] and encodes what [f] returns; in [pyval]
    these objects are the datetimes. *)
Fixpoint apply_default (f : pyval -> pyval) (o : pyval) : pyval :=
  match o with
  | VList l => VList (map (apply_default f) l)
  | VDict kvs => VDict (map (fun kv => (fst kv, apply_default f (snd kv))) kvs)
  | VDatetime d => f (VDatetime d)
  | _ => o
  end.

(** [obj[k]] with a string subscript. *)
Definition getitem (obj : pyval) (k : string) : M W pyval :=
  match obj with
  | VDict kvs =>
      match dict_get k kvs with
      | Some v => ret v
      | None => raise (KeyError k)
      end
  | _ => raise TypeError
  end.

(** [record[k]] on a fetched row. *)
Definition column (record : row) (k : string) : M W pyval :=
  match dict_get k record with
  | Some v => ret v
  | None => raise (KeyError k)
  end.

(** [obj[k] = v] with a string subscript. *)
Definition setitem (obj : pyval) (k : string) (v : pyval) : M W pyval :=
  match obj with
  | VDict kvs => ret (VDict (dict_set k v kvs))
  | _ => raise TypeError
  end.

(** [k in obj] for a string [k]: key of a dict, element of a list,
    substring of a string. *)
Definition contains (k : string) (obj : pyval) : M W bool :=
  match obj with
  | VDict kvs => ret (bool_decide (is_Some (dict_get k kvs)))
  | VList l =>
      ret (existsb (fun x => match x with
                             | VStr s => String.eqb s k
                             | _ => false
                             end) l)
  | VStr s => ret (is_substring k s)
  | _ => raise TypeError
  end.

(** [datetime.fromisoformat(s)]. *)
Definition datetime_fromisoformat (s : pyval) : M W pyval :=
  match s with
  | VStr text =>
      match fromisoformat lib text with
      | Some d => ret (VDatetime d)
      | None => raise ValueError
      end
  | _ => raise TypeError
  end.

(** [if result:] on what [fetch_one] returned: [None] and the empty
    record are false. *)
Definition fetched (result : option row) : option row :=
  match result with
  | Some (c :: r) => Some (c :: r)
  | _ => None
  end.

(** [encrypt_data] and [decrypt_data]: [data.encode()] exists on
    [str] only. *)
Definition encrypt_data (data : pyval) : M W string :=
  match data with
  | VStr s => fernet_encrypt env s
  | _ => raise AttributeError
  end.

Definition decrypt_data (encrypted_data : pyval) : M W string :=
  match encrypted_data with
  | VStr s => fernet_decrypt env s
  | _ => raise AttributeError
  end.

(** The f-string [f"{prefix}:{guild_id}:{key}"]. *)
Definition cache_key (prefix : string) (guild_id : Z) (key : string) : string :=
  prefix ++ ":" ++ pretty guild_id ++ ":" ++ key.

(** *** Guild configuration, guild settings, bot-detection configuration

    [get_guild_config], [get_guild_setting] and [get_botdetect_config]
    have one body up to the cache prefix, the table and the text of
    the log message; so have the three setters. *)
Definition get_value (prefix : string) (t : table)
    (guild_id : Z) (key : string) (default : pyval) : M W pyval :=
  let cache_key := cache_key prefix guild_id key in
  cached <- get_cache env cache_key ;;
  match cached with
  | VNone =>
      try_except
        (result <- execute_query_one env (select_value t guild_id key) ;;
         match fetched result with
         | Some result =>
             value <- column result "value" ;;
             value <- match value with
                      | VStr _ =>
                          try_except (loads value)
                            JSONDecodeError_or_TypeError
                            (fun _ => ret value)
                      | _ => ret value
                      end ;;
             set_cache env cache_key value ;;
             ret value
         | None => ret default
         end)
        Exception (fun e => ret default)
  | _ => ret cached
  end.

Definition set_value (prefix : string) (t : table)
    (guild_id : Z) (key : string) (value : pyval) : M W bool :=
  try_except
    (json_value <- dumps value ;;
     let data := [("guild_id", VInt guild_id);
                  ("key", VStr key);
                  ("value", VStr json_value)] in
     success <- insert_or_update env t ["guild_id"; "key"] data ;;
     (if success
      then set_cache env (cache_key prefix guild_id key) value
      else ret tt) ;;
     ret success)
    Exception (fun e => ret false).

(** The loop of [get_all_guild_config]: one dict entry per row. The
    [key] column is TEXT; another value raises here. *)
Fixpoint collect_config (results : list row) (config : row) : M W row :=
  match results with
  | [] => ret config
  | r :: results' =>
      value <- column r "value" ;;
      parsed <- match value with
                | VStr _ =>
                    try_except (loads value)
                      JSONDecodeError_or_TypeError
                      (fun _ => ret value)
                | _ => ret value
                end ;;
      k <- column r "key" ;;
      match k with
      | VStr k => collect_config results' (dict_set k parsed config)
      | _ => raise TypeError
      end
  end.

Definition get_all_values (t : table) (guild_id : Z) : M W pyval :=
  try_except
    (results <- execute_query_all env (select_key_value t guild_id) ;;
     match results with
     | Some results =>
         config <- collect_config results [] ;;
         ret (VDict config)
     | None => raise TypeError
     end)
    Exception (fun e => ret (VDict [])).

Definition get_guild_config := get_value "guild_config" guild_config.
Definition set_guild_config := set_value "guild_config" guild_config.
Definition get_all_guild_config := get_all_values guild_config.

Definition get_guild_setting := get_value "guild_setting" guild_settings.
Definition set_guild_setting := set_value "guild_setting" guild_settings.

Definition get_botdetect_config := get_value "botdetect_config" botdetect_config.
Definition set_botdetect_config := set_value "botdetect_config" botdetect_config.
Definition get_all_botdetect_config := get_all_values botdetect_config.

(** *** Log event toggles *)

Definition get_log_event_enabled (guild_id : Z) (event_key : string)
    (default_enabled : bool) : M W pyval :=
  try_except
    (result <- execute_query_one env (select_enabled guild_id event_key) ;;
     match fetched result with
     | Some result => column result "enabled"
     | None => ret (VBool default_enabled)
     end)
    Exception (fun e => ret (VBool default_enabled)).

Definition set_log_event_enabled (guild_id : Z) (event_key : string)
    (enabled : bool) : M W bool :=
  try_except
    (let data := [("guild_id", VInt guild_id);
                  ("event_key", VStr event_key);
                  ("enabled", VBool enabled)] in
     insert_or_update env log_event_toggles ["guild_id"; "event_key"] data)
    Exception (fun e => ret false).

(** The dict comprehension of [get_all_log_event_toggles]. *)
Fixpoint collect_toggles (results : list row) (toggles : row) : M W row :=
  match results with
  | [] => ret toggles
  | r :: results' =>
      k <- column r "event_key" ;;
      enabled <- column r "enabled" ;;
      match k with
      | VStr k => collect_toggles results' (dict_set k enabled toggles)
      | _ => raise TypeError
      end
  end.

Definition get_all_log_event_toggles (guild_id : Z) : M W pyval :=
  try_except
    (results <- execute_query_all env (select_event_key_enabled guild_id) ;;
     match results with
     | Some results =>
         toggles <- collect_toggles results [] ;;
         ret (VDict toggles)
     | None => raise TypeError
     end)
    Exception (fun e => ret (VDict [])).

(** *** Guild API keys *)

Definition api_key_cache_key (guild_id : Z) : string :=
  "guild_api_key:" ++ pretty guild_id.

(** The local function [datetime_converter] of [set_guild_api_key];
    falling off its end returns [None]. *)
Definition datetime_converter (o : pyval) : pyval :=
  match o with
  | VDatetime d => VStr (isoformat lib d)
  | _ => VNone
  end.

Definition is_dict (o : pyval) : bool :=
  match o with VDict _ => true | _ => false end.

Definition is_str (o : pyval) : bool :=
  match o with VStr _ => true | _ => false end.

Definition set_guild_api_key (guild_id : Z) (api_provider : string)
    (key_data : pyval) : M W bool :=
  try_except
    (encrypted <-
       (if String.eqb api_provider "github_copilot" && is_dict key_data then
          text <- dumps (apply_default datetime_converter key_data) ;;
          encrypted_string <- encrypt_data (VStr text) ;;
          encrypted_github_auth <- dumps (VDict [("data", VStr encrypted_string)]) ;;
          ret (Some (VNone, VStr encrypted_github_auth))
        else if is_str key_data then
          encrypted_key <- encrypt_data key_data ;;
          ret (Some (VStr encrypted_key, VNone))
        else
          ret None) ;;
     match encrypted with
     | None => ret false
     | Some (encrypted_key, encrypted_github_auth) =>
         let data := [("guild_id", VInt guild_id);
                      ("api_provider", VStr api_provider);
                      ("encrypted_api_key", encrypted_key);
                      ("encrypted_github_auth_info", encrypted_github_auth)] in
         success <- insert_or_update env guild_api_keys ["guild_id"] data ;;
         (if success
          then delete_cache env (api_key_cache_key guild_id)
          else ret tt) ;;
         ret success
     end)
    Exception (fun e => ret false).

(** [db_data.get(k)] followed by the truth test. *)
Definition populated (db_data : row) (k : string) : option pyval :=
  match dict_get k db_data with
  | Some v => if truthy v then Some v else None
  | None => None
  end.

Definition get_guild_api_key (guild_id : Z) : M W (option GuildAPIKey) :=
  let cache_key := api_key_cache_key guild_id in
  cached <- get_cache env cache_key ;;
  if truthy cached then
    guild_key <- lift_result (GuildAPIKey_kwargs cached) ;;
    ret (Some guild_key)
  else
    try_except
      (result <- execute_query_one env (select_guild_api_key guild_id) ;;
       match fetched result with
       | None => ret None
       | Some db_data =>
           api_key <- match populated db_data "encrypted_api_key" with
                      | Some c => s <- decrypt_data c ;; ret (VStr s)
                      | None => ret VNone
                      end ;;
           github_auth_info <-
             match populated db_data "encrypted_github_auth_info" with
             | Some c =>
                 auth_data_wrapper <- loads c ;;
                 encrypted_string <- getitem auth_data_wrapper "data" ;;
                 decrypted_auth_str <- decrypt_data encrypted_string ;;
                 github_auth_info <- loads (VStr decrypted_auth_str) ;;
                 has_expiry <- contains "expires_at" github_auth_info ;;
                 if has_expiry then
                   text <- getitem github_auth_info "expires_at" ;;
                   expires_at <- datetime_fromisoformat text ;;
                   setitem github_auth_info "expires_at" expires_at
                 else ret github_auth_info
             | None => ret VNone
             end ;;
           g <- column db_data "guild_id" ;;
           p <- column db_data "api_provider" ;;
           created_at <- column db_data "created_at" ;;
           updated_at <- column db_data "updated_at" ;;
           let guild_key :=
             {| key_guild_id := g;
                key_api_provider := p;
                key_api_key := api_key;
                key_github_auth_info := github_auth_info;
                key_created_at := created_at;
                key_updated_at := updated_at |} in
           set_cache env cache_key (GuildAPIKey_dict guild_key) ;;
           ret (Some guild_key)
       end)
      Exception (fun e => ret None).

Definition remove_guild_api_key (guild_id : Z) : M W bool :=
  try_except
    (success <- delete_record env guild_api_keys guild_id ;;
     (if success
      then delete_cache env (api_key_cache_key guild_id)
      else ret tt) ;;
     ret success)
    Exception (fun e => ret false).

End Operations.

(** ** A reference environment *)

#[global] Instance table_eq_dec : EqDecision table.
Proof. solve_decision. Defined.

#[global] Instance table_countable : Countable table.
Proof.
  refine (inj_countable'
    (fun t => match t with
              | guild_config => 0%nat
              | guild_settings => 1%nat
              | log_event_toggles => 2%nat
              | botdetect_config => 3%nat
              | guild_api_keys => 4%nat
              end)
    (fun n => match n with
              | 0%nat => guild_config
              | 1%nat => guild_settings
              | 2%nat => log_event_toggles
              | 3%nat => botdetect_config
              | _ => guild_api_keys
              end) _).
  intros []; reflexivity.
Defined.

Module Env.

(** How the store answers one call. *)
Inductive fault :=
| Healthy                (* the statement is executed *)
| Unavailable            (* reported failure: no row, or [False] *)
| Crash (e : exn).       (* the driver raises *)

(** The calls made on the cache and on the store, oldest first. *)
Inductive call :=
| CacheGet (k : string)
| CacheSet (k : string) (v : pyval)
| CacheDelete (k : string)
| Query (s : statement)
| Upsert (t : table) (data : row)
| Delete (t : table) (guild_id : Z).

(** Modelled from the spec: the Cache Layer ([.cache]) and the
    Persistent Store Adapter ([.connection]), whose code is not part
    of the sources at hand. The cache maps a key to an opaque value
    and may lose entries; the store holds at most one row per
    conflict key ([guild_id], or [guild_id] and a second text
    column, [""] when there is none) and reports each failure as an
    absent result or [False]. [faults] schedules how the store
    answers its next calls ([Healthy] once the list is exhausted),
    [Crash] being the driver error the accessors guard against. *)
Record world := mk_world {
  cache : gmap string pyval;
  db : gmap (table * Z * string) row;
  faults : list fault;
  clock : pyval;            (* the store's [now()], for row timestamps *)
  trace : list call
}.

Definition with_cache (f : gmap string pyval -> gmap string pyval) (w : world) : world :=
  {| cache := f (cache w); db := db w; faults := faults w;
     clock := clock w; trace := trace w |}.

Definition with_db
    (f : gmap (table * Z * string) row -> gmap (table * Z * string) row)
    (w : world) : world :=
  {| cache := cache w; db := f (db w); faults := faults w;
     clock := clock w; trace := trace w |}.

Definition record_call (c : call) (w : world) : world :=
  {| cache := cache w; db := db w; faults := faults w;
     clock := clock w; trace := trace w ++ [c] |}.

(** The answer scheduled for the next store call. *)
Definition next_fault (w : world) : fault :=
  match faults w with
  | [] => Healthy
  | f :: _ => f
  end.

Definition pop_fault (w : world) : world :=
  {| cache := cache w; db := db w; faults := tail (faults w);
     clock := clock w; trace := trace w |}.

(** Expiry of one cache entry, and a cold cache (a fresh process). *)
Definition evict (k : string) (w : world) : world := with_cache (delete k) w.
Definition clear_cache (w : world) : world := with_cache (fun _ => ∅) w.

(** *** Cache *)

Definition get_cache (k : string) : M world pyval :=
  fun w => (Ok (default VNone (cache w !! k)), record_call (CacheGet k) w).

Definition set_cache (k : string) (v : pyval) : M world unit :=
  fun w => (Ok tt, with_cache <[k := v]> (record_call (CacheSet k v) w)).

Definition delete_cache (k : string) : M world unit :=
  fun w => (Ok tt, with_cache (delete k) (record_call (CacheDelete k) w)).

(** *** Store *)

(** The columns of a SELECT list, in order. *)
Definition project (cols : list string) (r : row) : row :=
  omap (fun c => match dict_get c r with
                 | Some v => Some (c, v)
                 | None => None
                 end) cols.

Definition rows_of (t : table) (guild_id : Z) (w : world) : list row :=
  omap (fun kr => match kr with
                  | ((t', g, _), r) =>
                      if bool_decide (t' = t /\ g = guild_id) then Some r else None
                  end)
       (map_to_list (db w)).

Definition select_one (s : statement) (w : world) : option row :=
  match s with
  | select_value t g k => project ["value"] <$> db w !! (t, g, k)
  | select_enabled g e => project ["enabled"] <$> db w !! (log_event_toggles, g, e)
  | select_guild_api_key g => db w !! (guild_api_keys, g, "")
  | select_key_value t g => head (project ["key"; "value"] <$> rows_of t g w)
  | select_event_key_enabled g =>
      head (project ["event_key"; "enabled"] <$> rows_of log_event_toggles g w)
  end.

Definition select_all (s : statement) (w : world) : list row :=
  match s with
  | select_key_value t g => project ["key"; "value"] <$> rows_of t g w
  | select_event_key_enabled g =>
      project ["event_key"; "enabled"] <$> rows_of log_event_toggles g w
  | _ => match select_one s w with Some r => [r] | None => [] end
  end.

Definition execute_query_one (s : statement) : M world (option row) :=
  fun w =>
    let w' := pop_fault (record_call (Query s) w) in
    match next_fault w with
    | Healthy => (Ok (select_one s w), w')
    | Unavailable => (Ok None, w')
    | Crash e => (Raised e, w')
    end.

Definition execute_query_all (s : statement) : M world (option (list row)) :=
  fun w =>
    let w' := pop_fault (record_call (Query s) w) in
    match next_fault w with
    | Healthy => (Ok (Some (select_all s w)), w')
    | Unavailable => (Ok None, w')
    | Crash e => (Raised e, w')
    end.

(** The conflict key of a row to upsert. *)
Definition conflict_key (conflict_keys : list string) (data : row)
    : option (Z * string) :=
  match conflict_keys with
  | [c1] =>
      match dict_get c1 data with
      | Some (VInt g) => Some (g, "")
      | _ => None
      end
  | [c1; c2] =>
      match dict_get c1 data, dict_get c2 data with
      | Some (VInt g), Some (VStr k) => Some (g, k)
      | _, _ => None
      end
  | _ => None
  end.

(** The row written by an upsert: the given columns, and for
    [guild_api_keys] the two timestamp columns the store fills in. *)
Definition upserted (t : table) (data : row) (old : option row) (w : world) : row :=
  match t with
  | guild_api_keys =>
      data ++ [("created_at",
                default (clock w) (old ≫= dict_get "created_at"));
               ("updated_at", clock w)]
  | _ => data
  end.

Definition insert_or_update (t : table) (conflict_keys : list string)
    (data : row) : M world bool :=
  fun w =>
    let w' := pop_fault (record_call (Upsert t data) w) in
    match next_fault w with
    | Healthy =>
        match conflict_key conflict_keys data with
        | Some (g, k) =>
            (Ok true,
             with_db <[(t, g, k) := upserted t data (db w !! (t, g, k)) w]> w')
        | None => (Ok false, w')
        end
    | Unavailable => (Ok false, w')
    | Crash e => (Raised e, w')
    end.

Definition delete_record (t : table) (guild_id : Z) : M world bool :=
  fun w =>
    let w' := pop_fault (record_call (Delete t guild_id) w) in
    match next_fault w with
    | Healthy =>
        (Ok true,
         with_db (filter (fun kr => ¬ (kr.1.1.1 = t /\ kr.1.1.2 = guild_id))) w')
    | Unavailable => (Ok false, w')
    | Crash e => (Raised e, w')
    end.

(** *** Fernet *)

(** The module-level [fernet] object: [None] stands for the
    exception the call raises. *)
Record Fernet := {
  encrypt : string -> option string;
  decrypt : string -> option string
}.

Definition fernet_encrypt (f : Fernet) (s : string) : M world string :=
  match encrypt f s with
  | Some c => ret c
  | None => raise (CryptoError "encrypt")
  end.

Definition fernet_decrypt (f : Fernet) (c : string) : M world string :=
  match decrypt f c with
  | Some s => ret s
  | None => raise (CryptoError "InvalidToken")
  end.

Definition environment (f : Fernet) : Environment world :=
  Build_Environment world
    get_cache set_cache delete_cache
    execute_query_one execute_query_all
    insert_or_update delete_record
    (fernet_encrypt f) (fernet_decrypt f).

End Env.

(** ** A reference standard library

    An executable [json] and [datetime] for running the accessors on
    concrete inputs: the compact subset of JSON that [pyval] covers
    (no floats, no escapes other than the quote and the backslash), and
    ISO 8601 timestamps to the second. *)
Module RefLib.

Definition quote_char : ascii := ascii_of_nat 34.
Definition backslash : ascii := "\"%char.

Fixpoint escape (s : string) : string :=
  match s with
  | EmptyString => EmptyString
  | String c s' =>
      if Ascii.eqb c quote_char || Ascii.eqb c backslash
      then String backslash (String c (escape s'))
      else String c (escape s')
  end.

Definition quoted (s : string) : string :=
  String quote_char (escape s ++ String quote_char EmptyString).

Fixpoint join (sep : string) (items : list string) : string :=
  match items with
  | [] => ""
  | [x] => x
  | x :: rest => x ++ sep ++ join sep rest
  end.

Fixpoint write (o : pyval) : option string :=
  match o with
  | VNone => Some "null"
  | VBool true => Some "true"
  | VBool false => Some "false"
  | VInt n => Some (pretty n)
  | VStr s => Some (quoted s)
  | VList l =>
      let fix items (l : list pyval) : option (list string) :=
        match l with
        | [] => Some []
        | x :: l' =>
            match write x, items l' with
            | Some s, Some ss => Some (s :: ss)
            | _, _ => None
            end
        end in
      match items l with
      | Some ss => Some ("[" ++ join ", " ss ++ "]")
      | None => None
      end
  | VDict kvs =>
      let fix members (kvs : list (string * pyval)) : option (list string) :=
        match kvs with
        | [] => Some []
        | (k, x) :: kvs' =>
            match write x, members kvs' with
            | Some s, Some ss => Some ((quoted k ++ ": " ++ s) :: ss)
            | _, _ => None
            end
        end in
      match members kvs with
      | Some ss => Some ("{" ++ join ", " ss ++ "}")
      | None => None
      end
  | VDatetime _ => None
  end.

Fixpoint skip_ws (s : string) : string :=
  match s with
  | String " " s' => skip_ws s'
  | _ => s
  end.

Definition digit_of (c : ascii) : option Z :=
  let n := Z.of_nat (nat_of_ascii c) in
  if (48 <=? n) && (n <=? 57) then Some (n - 48) else None.

(** The longest digit prefix of [s], read onto [acc]. *)
Fixpoint read_digits (acc : Z) (s : string) : Z * string :=
  match s with
  | String c s' =>
      match digit_of c with
      | Some d => read_digits (10 * acc + d) s'
      | None => (acc, s)
      end
  | EmptyString => (acc, s)
  end.

Definition starts_with_digit (s : string) : bool :=
  match s with
  | String c _ => bool_decide (is_Some (digit_of c))
  | EmptyString => false
  end.

(** The text after an opening quote, up to the closing one. *)
Fixpoint read_text (s : string) : option (string * string) :=
  match s with
  | EmptyString => None
  | String c s' =>
      if Ascii.eqb c quote_char then Some (EmptyString, s')
      else if Ascii.eqb c backslash then
        match s' with
        | String c' s'' =>
            match read_text s'' with
            | Some (t, rest) => Some (String c' t, rest)
            | None => None
            end
        | EmptyString => None
        end
      else
        match read_text s' with
        | Some (t, rest) => Some (String c t, rest)
        | None => None
        end
  end.

Definition drop_prefix (p s : string) : option string :=
  if String.prefix p s
  then Some (substring (String.length p) (String.length s - String.length p) s)
  else None.

Fixpoint read (fuel : nat) (s : string) : option (pyval * string) :=
  match fuel with
  | O => None
  | S fuel =>
      let s := skip_ws s in
      match s with
      | String "n" _ => (fun r => (VNone, r)) <$> drop_prefix "null" s
      | String "t" _ => (fun r => (VBool true, r)) <$> drop_prefix "true" s
      | String "f" _ => (fun r => (VBool false, r)) <$> drop_prefix "false" s
      | String "-" s' =>
          if starts_with_digit s'
          then let (n, r) := read_digits 0 s' in Some (VInt (- n), r)
          else None
      | String "[" s' =>
          match skip_ws s' with
          | String "]" r => Some (VList [], r)
          | _ => (fun lr => (VList (fst lr), snd lr)) <$> read_items fuel s'
          end
      | String "{" s' =>
          match skip_ws s' with
          | String "}" r => Some (VDict [], r)
          | _ => (fun lr => (VDict (fst lr), snd lr)) <$> read_members fuel s'
          end
      | String c s' =>
          if Ascii.eqb c quote_char then
            (fun tr => (VStr (fst tr), snd tr)) <$> read_text s'
          else if starts_with_digit s
          then let (n, r) := read_digits 0 s in Some (VInt n, r)
          else None
      | EmptyString => None
      end
  end
with read_items (fuel : nat) (s : string) : option (list pyval * string) :=
  match fuel with
  | O => None
  | S fuel =>
      match read fuel s with
      | Some (x, r) =>
          match skip_ws r with
          | String "," r' =>
              (fun lr => (x :: fst lr, snd lr)) <$> read_items fuel r'
          | String "]" r' => Some ([x], r')
          | _ => None
          end
      | None => None
      end
  end
with read_members (fuel : nat) (s : string)
    : option (list (string * pyval) * string) :=
  match fuel with
  | O => None
  | S fuel =>
      match skip_ws s with
      | String c s' =>
          if Ascii.eqb c quote_char then
            match read_text s' with
            | Some (k, r) =>
                match skip_ws r with
                | String ":" r' =>
                    match read fuel r' with
                    | Some (x, r'') =>
                        match skip_ws r'' with
                        | String "," r3 =>
                            (fun lr => ((k, x) :: fst lr, snd lr))
                              <$> read_members fuel r3
                        | String "}" r3 => Some ([(k, x)], r3)
                        | _ => None
                        end
                    | None => None
                    end
                | _ => None
                end
            | None => None
            end
          else None
      | EmptyString => None
      end
  end.

Definition parse (s : string) : option pyval :=
  match read (S (String.length s)) s with
  | Some (v, rest) =>
      match skip_ws rest with
      | EmptyString => Some v
      | _ => None
      end
  | None => None
  end.

(** [n] in decimal, zero-padded on the left to [width] digits. *)
Definition padded (width : nat) (n : Z) : string :=
  let digits := pretty n in
  String.concat "" (repeat "0" (width - String.length digits)) ++ digits.

Definition format_offset (o : option Z) : string :=
  match o with
  | None => ""
  | Some m =>
      (if m <? 0 then "-" else "+")
      ++ padded 2 (Z.abs m / 60) ++ ":" ++ padded 2 (Z.abs m mod 60)
  end.

Definition format_datetime (d : datetime) : string :=
  padded 4 (dt_year d) ++ "-" ++ padded 2 (dt_month d) ++ "-"
  ++ padded 2 (dt_day d) ++ "T" ++ padded 2 (dt_hour d) ++ ":"
  ++ padded 2 (dt_minute d) ++ ":" ++ padded 2 (dt_second d)
  ++ format_offset (dt_utcoffset d).

(** The number written in the [len] characters of [s] from [pos]. *)
Definition number_at (pos len : nat) (s : string) : option Z :=
  let field := substring pos len s in
  match read_digits 0 field with
  | (n, EmptyString) =>
      if Nat.eqb (String.length field) len then Some n else None
  | _ => None
  end.

Definition parse_offset (s : string) : option (option Z) :=
  match s with
  | EmptyString => Some None
  | String sign rest =>
      match number_at 0 2 rest, number_at 3 2 rest with
      | Some h, Some m =>
          if String.eqb (substring 2 1 rest) ":"
             && Nat.eqb (String.length rest) 5
          then if Ascii.eqb sign "+" then Some (Some (60 * h + m))
               else if Ascii.eqb sign "-" then Some (Some (- (60 * h + m)))
               else None
          else None
      | _, _ => None
      end
  end.

Definition parse_datetime (s : string) : option datetime :=
  match number_at 0 4 s, number_at 5 2 s, number_at 8 2 s,
        number_at 11 2 s, number_at 14 2 s, number_at 17 2 s,
        parse_offset (substring 19 (String.length s - 19) s) with
  | Some y, Some mo, Some d, Some h, Some mi, Some sec, Some off =>
      if String.eqb (substring 4 1 s) "-" && String.eqb (substring 7 1 s) "-"
         && String.eqb (substring 10 1 s) "T"
         && String.eqb (substring 13 1 s) ":"
         && String.eqb (substring 16 1 s) ":"
      then Some (mk_datetime y mo d h mi sec off)
      else None
  | _, _, _, _, _, _, _ => None
  end.

Definition pylib : PyLib :=
  {| json_dumps := write;
     json_loads := parse;
     isoformat := format_datetime;
     fromisoformat := parse_datetime |}.

(** A stand-in for Fernet: the token is the plaintext behind a
    version tag, and a token without the tag is rejected. *)
Definition fernet : Env.Fernet :=
  {| Env.encrypt := fun s => Some ("gAAAAA" ++ s);
     Env.decrypt := drop_prefix "gAAAAA" |}.

End RefLib.

(** ** cogs/logging_cog.py: the event relay *)

Module Relay.

(** [discord.User] / [discord.Member], as far as the handlers read them. *)
Record user := {
  user_id : Z;
  user_name : string;
  discriminator : string;
  display_name : string;
  is_member : bool;        (* [isinstance(user, discord.Member)] *)
  bot : bool;
  member_guild : Z;        (* [member.guild.id] *)
  created_at : string      (* [discord.utils.format_dt(member.created_at, style="F")] *)
}.

(** [discord.Message]. *)
Record message := {
  message_id : Z;
  guild : option Z;        (* [message.guild], [None] in a private channel *)
  author : user;
  content : string;
  channel_mention : string;
  jump_url : string
}.

(** The rendered notification: what [LogView] is built from and what
    [add_field], [_add_id_footer] add to it. *)
Record LogView := {
  title : string;
  description : string;
  color : string;
  view_author : option user;
  fields : list (string * string);
  footer : string
}.

(** [self.bot.user] and the clock of [LogView.__init__]. *)
Record Bot := {
  bot_id : Z;
  bot_name : string;
  timestamp : string       (* [format_dt(datetime.utcnow(), style="f")] *)
}.

(** [self.session]. *)
Inductive session_state := NoSession | SessionOpen | SessionClosed.

(** One call of [webhook.send]: always with
    [allowed_mentions=AllowedMentions.none()]. *)
Record delivery := {
  sent_to : string;
  sent_view : LogView;
  sent_as : string
}.

(** The cog over the state [S] of the settings manager: the HTTP
    session, and the calls made on the outbound transport. *)
Record cog (S : Type) := {
  settings : S;
  session : session_state;
  outbox : list delivery
}.
Arguments settings {S} _.
Arguments session {S} _.
Arguments outbox {S} _.

(** [from .logging_helpers import settings_manager]: the two methods
    the relay calls. *)
Record SettingsManager (S : Type) := {
  get_logging_webhook : Z -> M S pyval;
  is_log_event_enabled : Z -> string -> bool -> M S pyval
}.
Arguments get_logging_webhook {S} _ _ _.
Arguments is_log_event_enabled {S} _ _ _ _ _.

(** The webhook client of discord.py: [Webhook.from_url] raises
    [ValueError] on a URL it does not recognise, and [send] may fail
    with any exception ([Forbidden], [NotFound], [HTTPException],
    [aiohttp.ClientError], ...), here depending on the call and on
    the calls made before. *)
Record Discord := {
  from_url : string -> bool;
  send_fails : list delivery -> delivery -> option exn
}.

Section Cog.
Context {S : Type} (sm : SettingsManager S) (discord : Discord) (self_bot : Bot).

(** A call on the settings manager, from inside the cog. *)
Definition on_settings {A} (m : M S A) : M (cog S) A :=
  fun c => match m (settings c) with
           | (r, s') =>
               (r, {| settings := s'; session := session c; outbox := outbox c |})
           end.

(** [await webhook.send(view=embed, username=..., ...)]. *)
Definition webhook_send (url : string) (embed : LogView) : M (cog S) unit :=
  fun c =>
    let d := {| sent_to := url; sent_view := embed;
                sent_as := bot_name self_bot ++ " Logs" |} in
    let c' := {| settings := settings c; session := session c;
                 outbox := (outbox c ++ [d])%list |} in
    match send_fails discord (outbox c) d with
    | Some e => (Raised e, c')
    | None => (Ok tt, c')
    end.

Definition _user_display (u : user) : string :=
  let display := if is_member u then display_name u else user_name u in
  let username := user_name u ++ "#" ++ discriminator u in
  display ++ " (" ++ username ++ ") [ID: " ++ pretty (user_id u) ++ "]".

(** [LogView.__init__]: the footer is the timestamp, the given
    footer or the bot id, and the author's id. *)
Definition _create_log_embed (title description color : string)
    (author : option user) (footer : option string) : LogView :=
  let parts :=
    timestamp self_bot
    :: match footer with
       | Some f => if String.eqb f "" then "Bot ID: " ++ pretty (bot_id self_bot) else f
       | None => "Bot ID: " ++ pretty (bot_id self_bot)
       end
    :: match author with
       | Some a => ["User ID: " ++ pretty (user_id a)]
       | None => []
       end in
  {| title := title; description := description; color := color;
     view_author := author; fields := [];
     footer := String.concat " | " parts |}.

Definition add_field (name value : string) (embed : LogView) : LogView :=
  {| title := title embed; description := description embed;
     color := color embed; view_author := view_author embed;
     fields := (fields embed ++ [(name, value)])%list;
     footer := footer embed |}.

(** [_add_id_footer(embed, obj, id_name=...)]: [link] is the jump
    link of a message, absent for a user. *)
Definition _add_id_footer (target_id : Z) (link : option string)
    (id_name : string) (embed : LogView) : LogView :=
  if target_id =? 0 then embed else
  let parts := (id_name ++ ": " ++ pretty target_id)
               :: match link with Some l => [l] | None => [] end in
  let sep := if String.eqb (footer embed) "" then "" else " | " in
  {| title := title embed; description := description embed;
     color := color embed; view_author := view_author embed;
     fields := fields embed;
     footer := footer embed ++ sep ++ String.concat " | " parts |}.

Definition _check_log_enabled (guild_id : Z) (event_key : string)
    : M (cog S) pyval :=
  webhook_url <- on_settings (get_logging_webhook sm guild_id) ;;
  if negb (truthy webhook_url) then ret (VBool false) else
  enabled <- on_settings (is_log_event_enabled sm guild_id event_key true) ;;
  ret enabled.

(** Every [except] clause of [_send_log_embed] logs and returns. *)
Definition _send_log_embed (guild_id : Z) (embed : LogView) : M (cog S) unit :=
  fun c =>
    match session c with
    | SessionOpen =>
        (webhook_url <- on_settings (get_logging_webhook sm guild_id) ;;
         if negb (truthy webhook_url) then ret tt else
         try_except
           (match webhook_url with
            | VStr url =>
                if from_url discord url then webhook_send url embed
                else raise ValueError
            | _ => raise TypeError
            end)
           Exception (fun e => ret tt)) c
    | _ => (Ok tt, c)
    end.

(** *** Event listeners *)

(** [content[:keep] + "..."] when [content] is longer than [limit]. *)
Definition clip (limit keep : nat) (content : string) : string :=
  if (limit <? String.length content)%nat
  then substring 0 keep content ++ "..."
  else content.

(** [if text: ... embed.add_field(name=..., value=clipped text)]. *)
Definition add_content_field (name : string) (limit keep : nat)
    (text : string) (embed : LogView) : LogView :=
  if String.eqb text "" then embed
  else add_field name (clip limit keep text) embed.

Definition member_join_view (member : user) : LogView :=
  add_field "Account Created" (created_at member)
    (_create_log_embed "📥 Member Joined"
       (_user_display member ++ " joined the server.")
       "green" (Some member) None).

Definition on_member_join (member : user) : M (cog S) unit :=
  let event_key := "member_join" in
  enabled <- _check_log_enabled (member_guild member) event_key ;;
  if negb (truthy enabled) then ret tt else
  _send_log_embed (member_guild member) (member_join_view member).

Definition member_remove_view (member : user) : LogView :=
  _add_id_footer (user_id member) None "User ID"
    (_create_log_embed "📤 Member Left"
       (_user_display member ++ " left the server.")
       "orange" (Some member) None).

Definition on_member_remove (member : user) : M (cog S) unit :=
  let event_key := "member_remove" in
  enabled <- _check_log_enabled (member_guild member) event_key ;;
  if negb (truthy enabled) then ret tt else
  _send_log_embed (member_guild member) (member_remove_view member).

Definition member_ban_view (u : user) : LogView :=
  _add_id_footer (user_id u) None "User ID"
    (_create_log_embed "🔨 Member Banned (Event)"
       (_user_display u ++ " was banned." ++ newline
        ++ "*Audit log may contain moderator and reason.*")
       "red" (Some u) None).

Definition on_member_ban (guild_id : Z) (u : user) : M (cog S) unit :=
  let event_key := "member_ban_event" in
  enabled <- _check_log_enabled guild_id event_key ;;
  if negb (truthy enabled) then ret tt else
  _send_log_embed guild_id (member_ban_view u).

Definition member_unban_view (u : user) : LogView :=
  _add_id_footer (user_id u) None "User ID"
    (_create_log_embed "🔓 Member Unbanned"
       (_user_display u ++ " was unbanned.")
       "blurple" (Some u) None).

Definition on_member_unban (guild_id : Z) (u : user) : M (cog S) unit :=
  let event_key := "member_unban" in
  enabled <- _check_log_enabled guild_id event_key ;;
  if negb (truthy enabled) then ret tt else
  _send_log_embed guild_id (member_unban_view u).

Definition message_link (m : message) : option string :=
  Some ("[Jump](" ++ jump_url m ++ ")").

Definition message_delete_view (m : message) : LogView :=
  _add_id_footer (message_id m) (message_link m) "Message ID"
    (add_content_field "Content" 1000 997 (content m)
       (_create_log_embed "🗑️ Message Deleted"
          ("Message by " ++ _user_display (author m) ++ " deleted in "
           ++ channel_mention m)
          "dark_grey" (Some (author m)) None)).

Definition on_message_delete (m : message) : M (cog S) unit :=
  match guild m with
  | None => ret tt
  | Some guild_id =>
      if bot (author m) then ret tt else
      let event_key := "message_delete" in
      enabled <- _check_log_enabled guild_id event_key ;;
      if negb (truthy enabled) then ret tt else
      _send_log_embed guild_id (message_delete_view m)
  end.

Definition message_edit_view (before after : message) : LogView :=
  _add_id_footer (message_id after) (message_link after) "Message ID"
    (add_content_field "After" 500 497 (content after)
       (add_content_field "Before" 500 497 (content before)
          (_create_log_embed "✏️ Message Edited"
             ("Message by " ++ _user_display (author after) ++ " edited in "
              ++ channel_mention after)
             "light_grey" (Some (author after)) None))).

Definition on_message_edit (before after : message) : M (cog S) unit :=
  match guild after with
  | None => ret tt
  | Some guild_id =>
      if bot (author after) || String.eqb (content before) (content after)
      then ret tt else
      let event_key := "message_edit" in
      enabled <- _check_log_enabled guild_id event_key ;;
      if negb (truthy enabled) then ret tt else
      _send_log_embed guild_id (message_edit_view before after)
  end.

(** The domain events the cog listens to. *)
Inductive event :=
| member_join (member : user)
| member_remove (member : user)
| member_ban (guild_id : Z) (u : user)
| member_unban (guild_id : Z) (u : user)
| message_delete (m : message)
| message_edit (before after : message).

(** The listener the platform client calls for an event. *)
Definition dispatch (ev : event) : M (cog S) unit :=
  match ev with
  | member_join m => on_member_join m
  | member_remove m => on_member_remove m
  | member_ban g u => on_member_ban g u
  | member_unban g u => on_member_unban g u
  | message_delete m => on_message_delete m
  | message_edit b a => on_message_edit b a
  end.

(** The toggle key an event is filed under. *)
Definition event_key (ev : event) : string :=
  match ev with
  | member_join _ => "member_join"
  | member_remove _ => "member_remove"
  | member_ban _ _ => "member_ban_event"
  | member_unban _ _ => "member_unban"
  | message_delete _ => "message_delete"
  | message_edit _ _ => "message_edit"
  end.

(** The guild an event is relayed for; [None] when the listener
    drops the event before any lookup (private channel, message
    of a bot, edit that leaves the content as it was). *)
Definition relayed_for (ev : event) : option Z :=
  match ev with
  | member_join m | member_remove m => Some (member_guild m)
  | member_ban g _ | member_unban g _ => Some g
  | message_delete m =>
      if bot (author m) then None else guild m
  | message_edit b a =>
      if bot (author a) || String.eqb (content b) (content a)
      then None else guild a
  end.

(** The notification an event is rendered to. *)
Definition view_of (ev : event) : LogView :=
  match ev with
  | member_join m => member_join_view m
  | member_remove m => member_remove_view m
  | member_ban _ u => member_ban_view u
  | member_unban _ u => member_unban_view u
  | message_delete m => message_delete_view m
  | message_edit b a => message_edit_view b a
  end.
End Cog.

(** Modelled from the spec: [logging_helpers.settings_manager],
    whose code is not part of the sources at hand. Its operations
    map directly onto the store accessors: the delivery target is the
    guild setting [webhook_key], absent by default, and the toggle
    is [get_log_event_enabled]. *)
Definition store_settings (lib : PyLib) (f : Env.Fernet) (webhook_key : string)
    : SettingsManager Env.world :=
  {| get_logging_webhook := fun guild_id =>
       get_guild_setting lib (Env.environment f) guild_id webhook_key VNone;
     is_log_event_enabled := fun guild_id event_key default_enabled =>
       get_log_event_enabled (Env.environment f)
         guild_id event_key default_enabled |}.

End Relay.

(** ** Vocabulary of the statements *)

(** What the bound on a field promises: a text over the bound is
    delivered truncated, that is as its first [limit - 3] characters
    followed by the marker, which is within the bound; a text within
    the bound is delivered as it is. *)
Definition clipped_to (limit : nat) (text value : string) : Prop :=
  ((limit < String.length text)%nat ->
     (String.length value <= limit)%nat
     /\ exists p rest,
          text = p ++ rest
          /\ String.length p = (limit - 3)%nat
          /\ value = p ++ "...")
  /\ ((String.length text <= limit)%nat -> value = text).

(** The fields a text contributes to a notification: none when the
    text is empty, otherwise the one field [name], carrying the text
    clipped to [limit]. *)
Definition content_field (name : string) (limit : nat) (text : string)
    (fs : list (string * string)) : Prop :=
  (text = "" -> fs = [])
  /\ (text <> "" ->
      exists value, fs = [(name, value)] /\ clipped_to limit text value).


(** The tables of the three key-value namespaces. *)
Definition key_value_table (t : table) : Prop :=
  t = guild_config \/ t = guild_settings \/ t = botdetect_config.

(** The three key-value namespaces and their accessors. *)
Section Namespaces.
Context (lib : PyLib) (f : Env.Fernet).

Inductive namespace := config | setting | botdetect.

Definition prefix_of (ns : namespace) : string :=
  match ns with
  | config => "guild_config"
  | setting => "guild_setting"
  | botdetect => "botdetect_config"
  end.

Definition table_of (ns : namespace) : table :=
  match ns with
  | config => guild_config
  | setting => guild_settings
  | botdetect => botdetect_config
  end.

Definition get_in (ns : namespace) : Z -> string -> pyval -> M Env.world pyval :=
  match ns with
  | config => get_guild_config lib (Env.environment f)
  | setting => get_guild_setting lib (Env.environment f)
  | botdetect => get_botdetect_config lib (Env.environment f)
  end.

Definition set_in (ns : namespace) : Z -> string -> pyval -> M Env.world bool :=
  match ns with
  | config => set_guild_config lib (Env.environment f)
  | setting => set_guild_setting lib (Env.environment f)
  | botdetect => set_botdetect_config lib (Env.environment f)
  end.

End Namespaces.

(** The row [set_log_event_enabled] writes. *)
Definition toggle_row (guild_id : Z) (event_key : string) (enabled : bool) : row :=
  [("guild_id", VInt guild_id); ("event_key", VStr event_key);
   ("enabled", VBool enabled)].

(** The row [set_guild_api_key] writes for a structured credential. *)
Definition github_auth_row (guild_id : Z) (wrapper : string)
    (created updated : pyval) : row :=
  [("guild_id", VInt guild_id);
   ("api_provider", VStr "github_copilot");
   ("encrypted_api_key", VNone);
   ("encrypted_github_auth_info", VStr wrapper);
   ("created_at", created);
   ("updated_at", updated)].

Section CachedEntries.
Context {W : Type} (env : Environment W).

(** What the cache answers for the API key of a guild is what
    [get_guild_api_key] stored there: the dictionary of a key. *)
Definition cached_key_well_formed (guild_id : Z) (w : W) : Prop :=
  forall v w',
    get_cache env (api_key_cache_key guild_id) w = (Ok v, w') ->
    truthy v = true -> exists g, GuildAPIKey_kwargs v = Ok g.

End CachedEntries.

Section Relayed.
Import Relay.
Context {S : Type} (sm : SettingsManager S) (discord : Discord) (self_bot : Bot).

(** What every listener does once it has accepted its event. *)
Definition relay (guild_id : Z) (key : string) (embed : LogView) : M (cog S) unit :=
  enabled <- _check_log_enabled sm guild_id key ;;
  if negb (truthy enabled) then ret tt else
  _send_log_embed sm discord self_bot guild_id embed.

End Relayed.

(** ** Runs on concrete inputs *)

Module Examples.
Import Relay.

Abbreviation lib := RefLib.pylib.
Abbreviation E := (Env.environment RefLib.fernet).

Definition noon : datetime := mk_datetime 2025 1 2 12 0 0 None.

(** An empty cache over an empty, healthy store. *)
Definition fresh : Env.world :=
  Env.mk_world ∅ ∅ [] (VDatetime noon) [].

(** The same with a store that refuses, or crashes on, its next call. *)
Definition refusing : Env.world :=
  Env.mk_world ∅ ∅ [Env.Unavailable] (VDatetime noon) [].
Definition crashing : Env.world :=
  Env.mk_world ∅ ∅ [Env.Crash (StoreError "connection lost")] (VDatetime noon) [].

Definition document : pyval :=
  VDict [("threshold", VInt 3);
         ("roles", VList [VStr "mod"; VStr "admin"]);
         ("strict", VBool true);
         ("note", VNone)].

(** The JSON text of [document]. *)
Definition document_text : string :=
  Eval vm_compute in default "" (RefLib.write document).

(** A credential with two datetimes, one of them under "expires_at". *)
Definition credential : row :=
  [("token", VStr "ghu_abc");
   ("expires_at", VDatetime noon);
   ("refreshed_at", VDatetime noon)].

(** The JSON text of [credential], its token, and the wrapper
    stored in the row. *)
Definition credential_text : string :=
  Eval vm_compute in
    default "" (RefLib.write
                  (apply_default (datetime_converter RefLib.pylib)
                     (VDict credential))).
Definition credential_token : string :=
  Eval vm_compute in default "" (Env.encrypt RefLib.fernet credential_text).
Definition credential_wrapper : string :=
  Eval vm_compute in
    default "" (RefLib.write (VDict [("data", VStr credential_token)])).

(** A store whose API-key row for guild 7 carries a secret that is
    not a token of the cipher. *)
Definition corrupted : Env.world :=
  Env.mk_world ∅
    {[ (guild_api_keys, 7, "") :=
         [("guild_id", VInt 7); ("api_provider", VStr "openai");
          ("encrypted_api_key", VStr "not-a-token");
          ("encrypted_github_auth_info", VNone);
          ("created_at", VDatetime noon); ("updated_at", VDatetime noon)] ]}
    [] (VDatetime noon) [].

(** A cache that holds the key of guild 7. *)
Definition warm : Env.world :=
  Env.mk_world
    {[ api_key_cache_key 7 :=
         GuildAPIKey_dict
           (mk_GuildAPIKey (VInt 7) (VStr "openai") (VStr "sk-1") VNone
              (VDatetime noon) (VDatetime noon)) ]}
    ∅ [] (VDatetime noon) [].

(** A store in which the toggle "message_delete" of guild 7 is off. *)
Definition toggled_off : Env.world :=
  snd (set_log_event_enabled E 7 "message_delete" false fresh).

Definition webhook_key : string := "logging_webhook_url".

(** A webhook URL of the platform: the endpoint, an id of 18 digits
    and a token of 68 characters. *)
Definition webhook_url : string :=
  "https://discord.com/api/webhooks/123456789012345678/"
  ++ "abcdefghijklmnopqrstuvwxyzABCDEFGHIJKLMNOPQRSTUVWXYZ0123456789-_abcd".

(** The URLs the webhook client recognises: the webhook endpoint of
    the platform, an id of 17 to 20 digits, a slash and a token of
    at least 60 characters among letters, digits, [.], [-] and [_]. *)
Definition digit (c : ascii) : bool :=
  let n := nat_of_ascii c in (48 <=? n)%nat && (n <=? 57)%nat.

Definition token_char (c : ascii) : bool :=
  let n := nat_of_ascii c in
  digit c
  || ((65 <=? n)%nat && (n <=? 90)%nat)
  || ((97 <=? n)%nat && (n <=? 122)%nat)
  || (n =? 46)%nat || (n =? 45)%nat || (n =? 95)%nat.

(** The number of leading characters that satisfy [p], and the rest. *)
Fixpoint leading (p : ascii -> bool) (s : string) : nat * string :=
  match s with
  | String c s' =>
      if p c then let r := leading p s' in (S (fst r), snd r) else (O, s)
  | EmptyString => (O, s)
  end.

Definition recognised (url : string) : bool :=
  match RefLib.drop_prefix "https://discord.com/api/webhooks/" url with
  | Some rest =>
      let r := leading digit rest in
      (17 <=? fst r)%nat && (fst r <=? 20)%nat
      && match snd r with
         | String c token =>
             (nat_of_ascii c =? 47)%nat
             && (60 <=? fst (leading token_char token))%nat
         | EmptyString => false
         end
  | None => false
  end.

(** The settings manager over the store, and a webhook client that
    accepts the URLs of the platform and never fails. *)
Definition manager : SettingsManager Env.world :=
  store_settings lib RefLib.fernet webhook_key.
Definition client : Discord :=
  {| from_url := recognised;
     send_fails := fun _ _ => None |}.
Definition openguard : Bot :=
  {| bot_id := 99; bot_name := "OpenGuard"; timestamp := "<t:0:f>" |}.

(** Guild 7 with a delivery target and no toggle row. *)
Definition with_target : Env.world :=
  snd (set_guild_setting lib E 7 webhook_key (VStr webhook_url) fresh).

(** The same with the toggle "message_delete" off. *)
Definition with_target_toggled_off : Env.world :=
  snd (set_log_event_enabled E 7 "message_delete" false with_target).

Definition alice : user :=
  {| user_id := 42; user_name := "alice"; discriminator := "0";
     display_name := "Alice"; is_member := true; bot := false;
     member_guild := 7; created_at := "<t:1:F>" |}.

Definition long_text : string := String.concat "" (repeat "x" 1001).

Definition deleted : message :=
  {| message_id := 1234; guild := Some 7; author := alice;
     content := long_text; channel_mention := "<#5>";
     jump_url := "https://discord.com/channels/7/5/1234" |}.

Definition edited : message :=
  {| message_id := 1234; guild := Some 7; author := alice;
     content := "short"; channel_mention := "<#5>";
     jump_url := "https://discord.com/channels/7/5/1234" |}.

Definition cog_on (w : Env.world) (s : session_state) : cog Env.world :=
  {| settings := w; session := s; outbox := [] |}.

(** The reference environment behind a cache that cannot be reached:
    every lookup raises. *)
Definition cache_down : Environment Env.world :=
  Build_Environment Env.world
    (fun _ => raise (OtherError "ConnectionError"))
    (set_cache E) (delete_cache E)
    (execute_query_one E) (execute_query_all E)
    (insert_or_update E) (delete_record E)
    (fernet_encrypt E) (fernet_decrypt E).

(** A cache whose entry for the key of guild 7 lacks fields of a key. *)
Definition stale_key_cache : Env.world :=
  Env.mk_world
    {[ api_key_cache_key 7 :=
         VDict [("guild_id", VInt 7); ("api_provider", VStr "openai")] ]}
    ∅ [] (VDatetime noon) [].

(** The calls made between two worlds. *)
Definition calls_since (w w' : Env.world) : list Env.call :=
  drop (length (Env.trace w)) (Env.trace w').

End Examples.

(** ** database/operations.py: global bans, user data, appeals *)

Module Moderation.

(** The statements of these accessors:
    - [insert_global_ban u r b]: INSERT INTO global_bans (user_id, reason,
        banned_by) VALUES ($1, $2, $3) ON CONFLICT (user_id) DO NOTHING
    - [select_global_ban u]: SELECT 1 FROM global_bans WHERE user_id = $1
    - [select_global_bans]: SELECT user_id FROM global_bans
        ORDER BY banned_at DESC
    - [select_user_data u]: SELECT data FROM user_data WHERE user_id = $1
    and, on the appeals table,
    - [insert_appeal ...]: INSERT INTO appeals (appeal_id, user_id, reason,
        timestamp, status, original_infraction) VALUES ($1, ..., $6)
    - [select_appeal a]: SELECT appeal_id, ..., updated_at FROM appeals
        WHERE appeal_id = $1
    - [update_appeal s a]: UPDATE appeals SET status = $1 WHERE appeal_id = $2
    - [select_user_appeals u]: SELECT appeal_id, ..., updated_at FROM appeals
        WHERE user_id = $1 ORDER BY timestamp DESC *)
Inductive query :=
| insert_global_ban (user_id : Z) (reason banned_by : pyval)
| select_global_ban (user_id : Z)
| select_global_bans
| select_user_data (user_id : Z).

Inductive appeal_query :=
| insert_appeal (appeal_id : string) (user_id : Z) (reason : string)
    (timestamp : pyval) (status : string) (original_infraction : string)
| select_appeal (appeal_id : string)
| update_appeal (status appeal_id : string)
| select_user_appeals (user_id : Z).

(** The tables written through [insert_or_update] and [delete_record]. *)
Inductive relation := global_bans | user_data.

(** [.connection] for the accessors of global bans and user data. *)
Record Store (W : Type) := {
  execute_query : query -> M W unit;
  execute_query_one : query -> M W (option row);
  execute_query_all : query -> M W (option (list row));
  insert_or_update : relation -> list string -> row -> M W bool;
  delete_record : relation -> Z -> M W bool    (* WHERE user_id = $1 *)
}.
Arguments execute_query {W} _ _ _.
Arguments execute_query_one {W} _ _ _.
Arguments execute_query_all {W} _ _ _.
Arguments insert_or_update {W} _ _ _ _ _.
Arguments delete_record {W} _ _ _ _.

(** [.connection], [uuid] and the clock for the accessors of appeals. *)
Record AppealStore (W : Type) := {
  execute_appeal : appeal_query -> M W unit;
  fetch_appeal : appeal_query -> M W (option row);
  fetch_appeals : appeal_query -> M W (option (list row));
  uuid4 : M W string;                          (* [str(uuid.uuid4())] *)
  utcnow : M W pyval                           (* [datetime.now(timezone.utc)] *)
}.
Arguments execute_appeal {W} _ _ _.
Arguments fetch_appeal {W} _ _ _.
Arguments fetch_appeals {W} _ _ _.
Arguments uuid4 {W} _ _.
Arguments utcnow {W} _ _.

Section Accessors.
Context {W : Type} (lib : PyLib) (store : Store W) (appeals : AppealStore W).

(** [AppealStatus.PENDING.value]; the enumeration is declared in
    [.models]. *)
Context (PENDING : string).

(** *** Global bans *)

Definition add_global_ban (user_id : Z) (reason banned_by : pyval) : M W bool :=
  try_except
    (execute_query store (insert_global_ban user_id reason banned_by) ;;
     ret true)
    Exception (fun e => ret false).

Definition remove_global_ban (user_id : Z) : M W bool :=
  try_except (delete_record store global_bans user_id)
    Exception (fun e => ret false).

Definition is_globally_banned (user_id : Z) : M W bool :=
  try_except
    (result <- execute_query_one store (select_global_ban user_id) ;;
     ret (bool_decide (is_Some result)))
    Exception (fun e => ret false).

(** The list comprehension of [get_all_global_bans]. *)
Fixpoint user_ids (results : list row) : M W (list pyval) :=
  match results with
  | [] => ret []
  | r :: results' =>
      u <- column r "user_id" ;;
      rest <- user_ids results' ;;
      ret (u :: rest)
  end.

Definition get_all_global_bans : M W (list pyval) :=
  try_except
    (results <- execute_query_all store select_global_bans ;;
     match results with
     | Some results => user_ids results
     | None => raise TypeError
     end)
    Exception (fun e => ret []).

(** *** User data *)

Definition get_user_data (user_id : Z) : M W pyval :=
  try_except
    (result <- execute_query_one store (select_user_data user_id) ;;
     match fetched result with
     | Some result =>
         data <- column result "data" ;;
         if truthy data then
           (if is_str data then loads lib data else ret data)
         else ret (VDict [])
     | None => ret (VDict [])
     end)
    Exception (fun e => ret (VDict [])).

Definition set_user_data (user_id : Z) (data : pyval) : M W bool :=
  try_except
    (text <- dumps lib data ;;
     let user_data_row := [("user_id", VInt user_id); ("data", VStr text)] in
     insert_or_update store user_data ["user_id"] user_data_row)
    Exception (fun e => ret false).

Definition update_user_data_field (user_id : Z) (field : string) (value : pyval)
    : M W bool :=
  try_except
    (current_data <- get_user_data user_id ;;
     current_data <- setitem current_data field value ;;
     set_user_data user_id current_data)
    Exception (fun e => ret false).

Definition delete_user_data (user_id : Z) : M W bool :=
  try_except (delete_record store user_data user_id)
    Exception (fun e => ret false).

(** *** Appeals *)

Definition create_appeal (user_id : Z) (reason : string)
    (original_infraction : pyval) : M W (option string) :=
  try_except
    (appeal_id <- uuid4 appeals ;;
     timestamp <- utcnow appeals ;;
     text <- dumps lib original_infraction ;;
     execute_appeal appeals
       (insert_appeal appeal_id user_id reason timestamp PENDING text) ;;
     ret (Some appeal_id))
    Exception (fun e => ret None).

(** [appeal_data = dict(row)] with the "original_infraction" column
    parsed when it is not empty. *)
Definition parse_appeal (r : row) : M W row :=
  infraction <- column r "original_infraction" ;;
  if truthy infraction then
    parsed <- loads lib infraction ;;
    ret (dict_set "original_infraction" parsed r)
  else ret r.

Definition get_appeal (appeal_id : string) : M W (option row) :=
  try_except
    (result <- fetch_appeal appeals (select_appeal appeal_id) ;;
     match fetched result with
     | Some result =>
         appeal_data <- parse_appeal result ;;
         ret (Some appeal_data)
     | None => ret None
     end)
    Exception (fun e => ret None).

Definition update_appeal_status (appeal_id status : string) : M W bool :=
  try_except
    (execute_appeal appeals (update_appeal status appeal_id) ;;
     ret true)
    Exception (fun e => ret false).

(** The loop of [get_user_appeals]. *)
Fixpoint parse_appeals (results : list row) : M W (list row) :=
  match results with
  | [] => ret []
  | r :: results' =>
      appeal_data <- parse_appeal r ;;
      rest <- parse_appeals results' ;;
      ret (appeal_data :: rest)
  end.

Definition get_user_appeals (user_id : Z) : M W (list row) :=
  try_except
    (results <- fetch_appeals appeals (select_user_appeals user_id) ;;
     match results with
     | Some results => parse_appeals results
     | None => raise TypeError
     end)
    Exception (fun e => ret []).

End Accessors.
End Moderation.

(** ** A reference store for global bans and user data *)

Module ModEnv.
Import Moderation.

(** Modelled from the spec: the Persistent Store Adapter
    ([.connection]) over the tables [global_bans] and [user_data],
    with the effect each statement text asks for. [bans] lists the
    banned users newest first, which is the order of
    [ORDER BY banned_at DESC] under a clock that advances; [faults]
    schedules the answers of the store as in [Env.world]. *)
Record world := mk_world {
  bans : list (Z * row);
  documents : gmap Z row;
  faults : list Env.fault;
  clock : pyval
}.

Definition next_fault (w : world) : Env.fault :=
  match faults w with
  | [] => Env.Healthy
  | f :: _ => f
  end.

Definition pop_fault (w : world) : world :=
  {| bans := bans w; documents := documents w; faults := tail (faults w);
     clock := clock w |}.

Definition with_bans (f : list (Z * row) -> list (Z * row)) (w : world) : world :=
  {| bans := f (bans w); documents := documents w; faults := faults w;
     clock := clock w |}.

Definition with_documents (f : gmap Z row -> gmap Z row) (w : world) : world :=
  {| bans := bans w; documents := f (documents w); faults := faults w;
     clock := clock w |}.

Definition banned (user_id : Z) (w : world) : bool :=
  existsb (fun b => fst b =? user_id) (bans w).

(** INSERT ... ON CONFLICT (user_id) DO NOTHING. *)
Definition ban (user_id : Z) (reason banned_by : pyval) (w : world) : world :=
  if banned user_id w then w
  else with_bans
         (cons (user_id, [("user_id", VInt user_id); ("reason", reason);
                          ("banned_by", banned_by); ("banned_at", clock w)])) w.

Definition execute_query (q : query) : M world unit :=
  fun w =>
    let w' := pop_fault w in
    match next_fault w with
    | Env.Healthy =>
        match q with
        | insert_global_ban u r b => (Ok tt, ban u r b w')
        | _ => (Ok tt, w')
        end
    | Env.Unavailable => (Ok tt, w')
    | Env.Crash e => (Raised e, w')
    end.

Definition select_all (q : query) (w : world) : list row :=
  match q with
  | select_global_ban u =>
      if banned u w then [[("?column?", VInt 1)]] else []
  | select_global_bans => map (fun b => [("user_id", VInt (fst b))]) (bans w)
  | select_user_data u =>
      match documents w !! u with
      | Some r => [Env.project ["data"] r]
      | None => []
      end
  | insert_global_ban _ _ _ => []
  end.

Definition execute_query_one (q : query) : M world (option row) :=
  fun w =>
    let w' := pop_fault w in
    match next_fault w with
    | Env.Healthy => (Ok (head (select_all q w)), w')
    | Env.Unavailable => (Ok None, w')
    | Env.Crash e => (Raised e, w')
    end.

Definition execute_query_all (q : query) : M world (option (list row)) :=
  fun w =>
    let w' := pop_fault w in
    match next_fault w with
    | Env.Healthy => (Ok (Some (select_all q w)), w')
    | Env.Unavailable => (Ok None, w')
    | Env.Crash e => (Raised e, w')
    end.

Definition upsert (t : relation) (user_id : Z) (data : row) (w : world) : world :=
  match t with
  | user_data => with_documents <[user_id := data]> w
  | global_bans =>
      with_bans (fun l => (user_id, data)
                          :: filter (fun b => fst b <> user_id) l) w
  end.

Definition insert_or_update (t : relation) (conflict_keys : list string)
    (data : row) : M world bool :=
  fun w =>
    let w' := pop_fault w in
    match next_fault w with
    | Env.Healthy =>
        match Env.conflict_key conflict_keys data with
        | Some (u, _) => (Ok true, upsert t u data w')
        | None => (Ok false, w')
        end
    | Env.Unavailable => (Ok false, w')
    | Env.Crash e => (Raised e, w')
    end.

Definition delete_record (t : relation) (user_id : Z) : M world bool :=
  fun w =>
    let w' := pop_fault w in
    match next_fault w with
    | Env.Healthy =>
        (Ok true,
         match t with
         | global_bans => with_bans (filter (fun b => fst b <> user_id)) w'
         | user_data => with_documents (delete user_id) w'
         end)
    | Env.Unavailable => (Ok false, w')
    | Env.Crash e => (Raised e, w')
    end.

Definition store : Store world :=
  Build_Store world execute_query execute_query_one execute_query_all
    insert_or_update delete_record.

End ModEnv.

(** ** cogs/logging_cog.py: the toggle command *)

Module Commands.
Import Relay.

(** The list literal under [ALL_EVENT_KEYS]. *)
Definition listed_event_keys : list string :=
  ["member_join"; "member_remove"; "member_ban_event"; "member_unban";
   "member_update"; "role_create_event"; "role_delete_event";
   "role_update_event"; "channel_create_event"; "channel_delete_event";
   "channel_update_event"; "message_edit"; "message_delete"; "reaction_add";
   "reaction_remove"; "reaction_clear"; "reaction_clear_emoji";
   "voice_state_update"; "guild_update_event"; "emoji_update_event";
   "invite_create_event"; "invite_delete_event"; "command_error";
   "thread_create"; "thread_delete"; "thread_update"; "thread_member_join";
   "thread_member_remove"; "webhook_update";
   "audit_kick"; "audit_prune"; "audit_ban"; "audit_unban";
   "audit_member_role_update"; "audit_member_update_timeout";
   "audit_message_delete"; "audit_message_bulk_delete"; "audit_role_create";
   "audit_role_delete"; "audit_role_update"; "audit_channel_create";
   "audit_channel_delete"; "audit_channel_update"; "audit_emoji_create";
   "audit_emoji_delete"; "audit_emoji_update"; "audit_invite_create";
   "audit_invite_delete"; "audit_guild_update"].

(** [sorted(l)] on strings: ascending, equal elements in their order. *)
Fixpoint insert_sorted (k : string) (l : list string) : list string :=
  match l with
  | [] => [k]
  | x :: l' => if String.leb k x then k :: l else x :: insert_sorted k l'
  end.

Definition sorted (l : list string) : list string :=
  fold_right insert_sorted [] l.

Definition ALL_EVENT_KEYS : list string := sorted listed_event_keys.

(** [k in ALL_EVENT_KEYS]. *)
Definition is_event_key (k : string) : bool :=
  existsb (String.eqb k) ALL_EVENT_KEYS.

(** One [interaction.response.send_message]; mentions are always
    suppressed. *)
Record reply := {
  reply_text : string;
  ephemeral : bool
}.

(** The cog while it answers an interaction. *)
Record console (S : Type) := {
  cog_state : cog S;
  replies : list reply
}.
Arguments cog_state {S} _.
Arguments replies {S} _.

(** The method of [settings_manager] the command writes through. *)
Record SettingsWriter (S : Type) := {
  sm_set_log_event_enabled : Z -> string -> bool -> M S pyval
}.
Arguments sm_set_log_event_enabled {S} _ _ _ _ _.

Section Toggle.
Context {S : Type} (sm : SettingsManager S) (sw : SettingsWriter S).

(** [str.lower]. *)
Context (lower : string -> string).

Definition in_cog {A} (m : M (cog S) A) : M (console S) A :=
  fun c => match m (cog_state c) with
           | (r, c') => (r, {| cog_state := c'; replies := replies c |})
           end.

Definition send_message (text : string) (ephemeral : bool) : M (console S) unit :=
  fun c => (Ok tt,
            {| cog_state := cog_state c;
               replies := (replies c
                           ++ [{| reply_text := text; ephemeral := ephemeral |}])%list |}).

Definition log_toggle (guild_id : Z) (event_key : string)
    (enabled_status : option bool) : M (console S) unit :=
  let event_key := lower event_key in
  if negb (is_event_key event_key) then
    send_message
      ("❌ Invalid event key: `" ++ event_key
       ++ "`. Use `/log list_keys` to see valid keys.") true
  else
    new_status <-
      match enabled_status with
      | None =>
          current_status <-
            in_cog (on_settings (is_log_event_enabled sm guild_id event_key true)) ;;
          ret (negb (truthy current_status))
      | Some status => ret status
      end ;;
    success <-
      in_cog (on_settings
                (sm_set_log_event_enabled sw guild_id event_key new_status)) ;;
    if truthy success then
      let status_str := if new_status : bool then "ENABLED" else "DISABLED" in
      send_message
        ("✅ Logging for event `" ++ event_key ++ "` is now **" ++ status_str
         ++ "**.") false
    else
      send_message
        ("❌ Failed to update setting for event `" ++ event_key
         ++ "`. Please check logs or try again.") true.

End Toggle.

(** Modelled from the spec: [settings_manager.set_log_event_enabled],
    whose code is not part of the sources at hand; it maps directly
    onto the store accessor of the same name. *)
Definition store_writer (f : Env.Fernet) : SettingsWriter Env.world :=
  {| sm_set_log_event_enabled := fun guild_id event_key enabled =>
       success <- set_log_event_enabled (Env.environment f)
                    guild_id event_key enabled ;;
       ret (VBool success) |}.

(** The guild has the delivery target [url] under the setting
    [webhook_key], cached or stored, and the store answers every call. *)
Definition target_ready (lib : PyLib) (webhook_key : string) (guild_id : Z)
    (url : string) (w : Env.world) : Prop :=
  Env.faults w = []
  /\ (Env.cache w !! cache_key "guild_setting" guild_id webhook_key
      = Some (VStr url)
      \/ (default VNone
            (Env.cache w !! cache_key "guild_setting" guild_id webhook_key)
          = VNone
          /\ exists r text,
               Env.db w !! (guild_settings, guild_id, webhook_key) = Some r
               /\ dict_get "value" r = Some (VStr text)
               /\ json_loads lib text = Some (VStr url))).

End Commands.

(** ** Vocabulary of the further statements *)

(** The value a listing files a column under. *)
Definition parsed (lib : PyLib) (v : pyval) : pyval :=
  match v with
  | VStr text => default v (json_loads lib text)
  | _ => v
  end.

(** A row of the listing of a key-value table. *)
Definition listed_row (kv : string * pyval) : row :=
  [("key", VStr (fst kv)); ("value", snd kv)].

(** The row [set_user_data] writes. *)
Definition user_data_row (user_id : Z) (text : string) : row :=
  [("user_id", VInt user_id); ("data", VStr text)].

(** An appeal whose "original_infraction" is set and does not parse. *)
Definition malformed (lib : PyLib) (r : row) : Prop :=
  exists v, dict_get "original_infraction" r = Some v
    /\ truthy v = true
    /\ match v with
       | VStr text => json_loads lib text = None
       | _ => True
       end.

(** ** Further runs on concrete inputs *)

Module MoreExamples.
Import Relay Commands Moderation Examples.

(** Guild 7 after a write of [document] under "policy": cached and
    stored; the same with the cache entry evicted. *)
Definition cached_policy : Env.world :=
  snd (set_guild_config lib E 7 "policy" document fresh).
Definition stored_policy : Env.world :=
  Env.evict (cache_key "guild_config" 7 "policy") cached_policy.

(** Guild 7 after a write of [None] under "policy". *)
Definition cached_null : Env.world :=
  snd (set_guild_config lib E 7 "policy" VNone fresh).

(** A store that holds a text that is not JSON. *)
Definition stored_garbage : Env.world :=
  Env.mk_world ∅
    {[ (guild_config, 7, "policy") :=
         [("guild_id", VInt 7); ("key", VStr "policy");
          ("value", VStr "not json")] ]}
    [] (VDatetime noon) [].

(** The two rows of guild 7, as the store lists them. *)
Definition two_settings : Env.world :=
  snd (set_guild_config lib E 7 "limit" (VInt 5)
         (snd (set_guild_config lib E 7 "policy" document fresh))).
Definition two_settings_listed : row :=
  Eval vm_compute in
    omap (fun r => match dict_get "key" r, dict_get "value" r with
                   | Some (VStr k), Some v => Some (k, v)
                   | _, _ => None
                   end)
         (Env.select_all (select_key_value guild_config 7) two_settings).

(** A plain key and its token. *)
Definition secret : string := "sk-live-1".
Definition secret_token : string :=
  Eval vm_compute in default "" (Env.encrypt RefLib.fernet secret).

(** A credential whose expiry is a number, and the texts of its row. *)
Definition epoch_credential : row :=
  [("token", VStr "ghu_abc"); ("expires_at", VInt 1767268800)].
Definition epoch_text : string :=
  Eval vm_compute in default "" (RefLib.write (VDict epoch_credential)).
Definition epoch_token : string :=
  Eval vm_compute in default "" (Env.encrypt RefLib.fernet epoch_text).
Definition epoch_wrapper : string :=
  Eval vm_compute in
    default "" (RefLib.write (VDict [("data", VStr epoch_token)])).
Definition with_epoch_credential : Env.world :=
  snd (set_guild_api_key lib E 7 "github_copilot" (VDict epoch_credential) fresh).

(** A webhook client whose every call fails. *)
Definition failing_client : Discord :=
  {| from_url := recognised;
     send_fails := fun _ _ => Some (OtherError "HTTPException") |}.

(** A settings manager that cannot reach its store, and one that
    cannot read toggles. *)
Definition unreachable : SettingsManager unit :=
  {| get_logging_webhook := fun _ => raise (StoreError "unreachable");
     is_log_event_enabled := fun _ _ _ => raise (StoreError "unreachable") |}.
Definition toggles_unreadable : SettingsManager unit :=
  {| get_logging_webhook := fun _ => ret (VStr webhook_url);
     is_log_event_enabled := fun _ _ _ => raise (StoreError "unreachable") |}.

(** [str.lower] on ASCII letters. *)
Definition lower_char (c : ascii) : ascii :=
  let n := nat_of_ascii c in
  if (65 <=? n)%nat && (n <=? 90)%nat then ascii_of_nat (n + 32) else c.
Fixpoint ascii_lower (s : string) : string :=
  match s with
  | EmptyString => EmptyString
  | String c s' => String (lower_char c) (ascii_lower s')
  end.

(** An appeal store that lists the rows it is given. *)
Definition canned_appeals : AppealStore (list row) :=
  {| execute_appeal := fun _ => ret tt;
     fetch_appeal := fun _ rows => (Ok (head rows), rows);
     fetch_appeals := fun _ rows => (Ok (Some rows), rows);
     uuid4 := ret "00000000-0000-4000-8000-000000000000";
     utcnow := ret (VDatetime noon) |}.

Definition two_appeals : list row :=
  [[("appeal_id", VStr "a1"); ("user_id", VInt 42);
    ("original_infraction", VStr "{}")];
   [("appeal_id", VStr "a2"); ("user_id", VInt 42);
    ("original_infraction", VStr "{oops")]].

(** Stores of bans and user data: empty, with user 42 banned, with a
    document for user 42; and stores that fail their next call. *)
Definition no_bans : ModEnv.world :=
  ModEnv.mk_world [] ∅ [] (VDatetime noon).
Definition one_ban : ModEnv.world :=
  snd (add_global_ban ModEnv.store 42 (VStr "spam") (VInt 1) no_bans).
Definition one_ban_store_down : ModEnv.world :=
  ModEnv.mk_world (ModEnv.bans one_ban) ∅
    [Env.Crash (StoreError "connection lost")] (VDatetime noon).

Definition profile : pyval :=
  VDict [("nickname", VStr "al"); ("karma", VInt 3)].
Definition profile_text : string :=
  Eval vm_compute in default "" (RefLib.write profile).
Definition with_profile : ModEnv.world :=
  snd (set_user_data lib ModEnv.store 42 profile no_bans).
Definition with_profile_read_failing : ModEnv.world :=
  ModEnv.mk_world [] (ModEnv.documents with_profile)
    [Env.Unavailable] (VDatetime noon).
Definition karma_only_text : string :=
  Eval vm_compute in default "" (RefLib.write (VDict [("karma", VInt 4)])).
Definition with_list_document : ModEnv.world :=
  snd (set_user_data lib ModEnv.store 42 (VList [VInt 1]) no_bans).

End MoreExamples.

(** * Verification *)

(** ** Dictionaries and strings *)

Lemma dict_get_set_eq k v d : dict_get k (dict_set k v d) = Some v.
Proof.
  induction d as [| [k' v'] d IH]; simpl.
  - rewrite String.eqb_refl. reflexivity.
  - destruct (String.eqb k k') eqn:E; simpl.
    + rewrite String.eqb_refl. reflexivity.
    + rewrite E. exact IH.
Qed.

Lemma dict_get_set_ne k k' v d :
  k <> k' -> dict_get k' (dict_set k v d) = dict_get k' d.
Proof.
  intros Hne. induction d as [| [k0 v0] d IH]; simpl.
  - destruct (String.eqb k' k) eqn:E; [| reflexivity].
    apply String.eqb_eq in E. congruence.
  - destruct (String.eqb k k0) eqn:E; simpl.
    + apply String.eqb_eq in E. subst k0.
      destruct (String.eqb k' k) eqn:E'; [| reflexivity].
      apply String.eqb_eq in E'. congruence.
    + destruct (String.eqb k' k0); [reflexivity | exact IH].
Qed.

Lemma dict_get_map_values (f : pyval -> pyval) k (d : row) :
  dict_get k (map (fun kv => (fst kv, f (snd kv))) d) = f <$> dict_get k d.
Proof.
  induction d as [| [k' v'] d IH]; simpl; [reflexivity |].
  destruct (String.eqb k k'); [reflexivity | exact IH].
Qed.

Lemma length_substring_0 n s :
  String.length (substring 0 n s) = Nat.min n (String.length s).
Proof.
  revert s. induction n as [| n IH]; intros s.
  - destruct s; reflexivity.
  - destruct s as [| c s]; simpl; [reflexivity |]. rewrite IH. reflexivity.
Qed.

Lemma length_append s t :
  String.length (s ++ t) = (String.length s + String.length t)%nat.
Proof.
  induction s as [| c s IH]; simpl; [reflexivity | rewrite IH; reflexivity].
Qed.

(** ** Computations that cannot raise *)

Lemma ret_returns {W A} (a : A) (w : W) : returns (ret a) w.
Proof. exists a. reflexivity. Qed.

Lemma try_except_returns {W A} (body : M W A) (h : exn -> M W A) (w : W) :
  (forall e w', returns (h e) w') -> returns (try_except body Exception h) w.
Proof.
  intros Hh. unfold returns, try_except.
  destruct (body w) as [[a | e] w']; simpl; eauto.
  apply Hh.
Qed.

Create HintDb returns.
#[local] Hint Resolve ret_returns : returns.

(** ** Truncation of message content *)

Section Truncation.
Import Relay.

Lemma substring_0_prefix n s : exists rest, s = substring 0 n s ++ rest.
Proof.
  revert s. induction n as [| n IH]; intros s.
  - exists s. destruct s; reflexivity.
  - destruct s as [| c s]; simpl; [exists ""; reflexivity |].
    destruct (IH s) as [rest Hrest]. exists rest.
    change (String c s = String c (substring 0 n s ++ rest)).
    f_equal. exact Hrest.
Qed.

Lemma clip_long limit keep s :
  (limit < String.length s)%nat ->
  clip limit keep s = substring 0 keep s ++ "...".
Proof.
  intros Hl. unfold clip.
  destruct (Nat.ltb_spec limit (String.length s)) as [_ | Hge]; [| lia].
  reflexivity.
Qed.

Lemma clip_short limit keep s :
  (String.length s <= limit)%nat -> clip limit keep s = s.
Proof.
  intros Hl. unfold clip.
  destruct (Nat.ltb_spec limit (String.length s)); [lia | reflexivity].
Qed.

Lemma clip_clipped_to limit keep text :
  (keep + 3 = limit)%nat -> clipped_to limit text (clip limit keep text).
Proof.
  intros Hk. split.
  - intros Hl. rewrite (clip_long limit keep text Hl).
    assert (Hlen : String.length (substring 0 keep text) = keep)
      by (rewrite length_substring_0; lia).
    split.
    + rewrite length_append, Hlen. simpl. lia.
    + destruct (substring_0_prefix keep text) as [rest Hrest].
      exists (substring 0 keep text), rest.
      split; [exact Hrest |]. split; [lia | reflexivity].
  - apply clip_short.
Qed.

Lemma fields_add_content_field name limit keep text embed :
  fields (add_content_field name limit keep text embed)
  = (fields embed
     ++ if String.eqb text "" then [] else [(name, clip limit keep text)])%list.
Proof.
  unfold add_content_field.
  destruct (String.eqb text ""); simpl; [rewrite app_nil_r |]; reflexivity.
Qed.

Lemma fields_add_id_footer target link id_name embed :
  fields (_add_id_footer target link id_name embed) = fields embed.
Proof. unfold _add_id_footer. destruct (target =? 0); reflexivity. Qed.

Lemma clip_content_field name limit keep text :
  (keep + 3 = limit)%nat ->
  content_field name limit text
    (if String.eqb text "" then [] else [(name, clip limit keep text)]).
Proof.
  intros Hk. destruct (String.eqb_spec text "") as [Heq | Hne]; split.
  - reflexivity.
  - intros Hne. contradiction.
  - intros Heq. contradiction.
  - intros _. eexists. split; [reflexivity |]. apply clip_clipped_to. exact Hk.
Qed.

(** C9. The fields of the notification of a deleted message are what
    its text contributes under "Content" with the bound 1000; the
    fields of the notification of an edited message are what the
    former text contributes under "Before", followed by what the new
    text contributes under "After", each with the bound 500. A text
    contributes no field when it is empty and otherwise one field,
    which carries it clipped: over the bound, its first characters
    followed by "...", the bound in all (so at most the bound);
    within the bound, unchanged. *)
Theorem content_fields_are_clipped (self_bot : Bot) (m before after : message) :
  content_field "Content" 1000 (content m)
    (fields (message_delete_view self_bot m))
  /\ exists befores afters,
       fields (message_edit_view self_bot before after)
       = (befores ++ afters)%list
       /\ content_field "Before" 500 (content before) befores
       /\ content_field "After" 500 (content after) afters.
Proof.
  unfold message_delete_view, message_edit_view.
  rewrite !fields_add_id_footer, !fields_add_content_field. simpl.
  split.
  - apply clip_content_field. reflexivity.
  - do 2 eexists. split; [reflexivity |].
    split; apply clip_content_field; reflexivity.
Qed.
End Truncation.

(** ** The accessors on the reference environment *)

Section OnReferenceEnvironment.
Context (lib : PyLib) (f : Env.Fernet).
Let E := Env.environment f.

(** *** Reads *)

(** A read of a key that is neither cached nor stored returns the
    default and leaves the cache as it was, whatever the store does. *)
Lemma get_value_total_miss prefix t guild_id key default w :
  Env.cache w !! cache_key prefix guild_id key = None ->
  Env.db w !! (t, guild_id, key) = None ->
  fst (get_value lib E prefix t guild_id key default w) = Ok default
  /\ Env.cache (snd (get_value lib E prefix t guild_id key default w))
     = Env.cache w.
Proof.
  intros Hc Hd. destruct w as [c d fs clk tr]; cbn in *.
  unfold get_value, bind, try_except, E; cbn.
  rewrite Hc; cbn.
  destruct fs as [| [| | e] fs]; cbn; rewrite ?Hd; cbn; auto.
Qed.

(** A read that finds a cached value other than [None] returns it
    without calling the store. *)
Lemma get_value_cache_hit prefix t guild_id key default w v :
  Env.cache w !! cache_key prefix guild_id key = Some v ->
  v <> VNone ->
  get_value lib E prefix t guild_id key default w
  = (Ok v, Env.record_call (Env.CacheGet (cache_key prefix guild_id key)) w).
Proof.
  intros Hc Hv. unfold get_value, bind, E; cbn.
  rewrite Hc; cbn. destruct v; first [contradiction | reflexivity].
Qed.

(** A read that falls back to a healthy store returns the parsed
    [value] column of the stored row. *)
Lemma get_value_store_hit prefix t guild_id key fallback w r text v :
  default VNone (Env.cache w !! cache_key prefix guild_id key) = VNone ->
  Env.next_fault w = Env.Healthy ->
  Env.db w !! (t, guild_id, key) = Some r ->
  dict_get "value" r = Some (VStr text) ->
  json_loads lib text = Some v ->
  fst (get_value lib E prefix t guild_id key fallback w) = Ok v.
Proof.
  intros Hc Hf Hd Hr Hl. destruct w as [c d fs clk tr]; cbn in *.
  unfold get_value, bind, try_except, E; cbn.
  rewrite Hc; cbn.
  destruct fs as [| [| | e] fs]; cbn in *; try discriminate.
  all: rewrite Hd; cbn; unfold Env.project; cbn; rewrite Hr; cbn.
  all: unfold bind, try_except; cbn; rewrite Hl; reflexivity.
Qed.

(** *** Writes *)

(** The two outcomes of a write: the store took the row and the
    cache entry was set, or the write reports failure and neither
    changed. *)
Lemma set_value_cases prefix t guild_id key v w :
  key_value_table t ->
  let r := set_value lib E prefix t guild_id key v w in
  (fst r = Ok true
   /\ Env.next_fault w = Env.Healthy
   /\ (exists text, json_dumps lib v = Some text
        /\ Env.db (snd r) !! (t, guild_id, key)
           = Some [("guild_id", VInt guild_id); ("key", VStr key);
                   ("value", VStr text)])
   /\ Env.cache (snd r) = <[cache_key prefix guild_id key := v]> (Env.cache w)
   /\ Env.faults (snd r) = tail (Env.faults w))
  \/ (fst r = Ok false
      /\ (Env.next_fault w <> Env.Healthy \/ json_dumps lib v = None)
      /\ Env.cache (snd r) = Env.cache w
      /\ Env.db (snd r) = Env.db w).
Proof.
  intros Ht. destruct w as [c d fs clk tr]; cbn.
  unfold set_value, bind, try_except, dumps, E; cbn.
  destruct (json_dumps lib v) as [text |] eqn:Hd; cbn; [| right; auto].
  destruct fs as [| [| | e] fs]; cbn.
  1, 2: left; split; [reflexivity |]; split; [reflexivity |];
    split; [| split; reflexivity].
  1, 2: exists text; split; [reflexivity |].
  1, 2: destruct Ht as [-> | [-> | ->]]; cbn; apply lookup_insert_eq.
  all: right; repeat split; auto; left; discriminate.
Qed.

(** *** The three key-value namespaces *)

Lemma get_in_get_value ns :
  get_in lib f ns = get_value lib E (prefix_of ns) (table_of ns).
Proof. destruct ns; reflexivity. Qed.

Lemma set_in_set_value ns :
  set_in lib f ns = set_value lib E (prefix_of ns) (table_of ns).
Proof. destruct ns; reflexivity. Qed.

Lemma key_value_table_of ns : key_value_table (table_of ns).
Proof. destruct ns; unfold key_value_table; simpl; auto. Qed.

(** C6. A read, in any of the three namespaces, of a key that has
    no cache entry and no row in the store returns the default the
    caller gave and leaves the cache as it was: the default is not
    cached. This holds however the store answers the query. *)
Theorem total_miss_returns_default_uncached ns guild_id key dflt w :
  Env.cache w !! cache_key (prefix_of ns) guild_id key = None ->
  Env.db w !! (table_of ns, guild_id, key) = None ->
  fst (get_in lib f ns guild_id key dflt w) = Ok dflt
  /\ Env.cache (snd (get_in lib f ns guild_id key dflt w)) = Env.cache w.
Proof.
  rewrite get_in_get_value. apply get_value_total_miss.
Qed.

(** C5. A write, in any of the three namespaces, changes the cache
    only when the upsert reported success: when the store refuses
    the upsert or raises, the write returns [False] and the cache
    is unchanged; whenever the write does not return [True] the
    cache is unchanged; and when the cache did change, the store
    holds the serialised value under the written key. *)
Theorem cache_written_only_after_store_success ns guild_id key v w :
  let r := set_in lib f ns guild_id key v w in
  (Env.next_fault w <> Env.Healthy ->
     fst r = Ok false /\ Env.cache (snd r) = Env.cache w)
  /\ (fst r <> Ok true -> Env.cache (snd r) = Env.cache w)
  /\ (Env.cache (snd r) <> Env.cache w ->
      exists text, json_dumps lib v = Some text
        /\ Env.db (snd r) !! (table_of ns, guild_id, key)
           = Some [("guild_id", VInt guild_id); ("key", VStr key);
                   ("value", VStr text)]).
Proof.
  rewrite set_in_set_value. cbv zeta.
  destruct (set_value_cases (prefix_of ns) (table_of ns) guild_id key v w
              (key_value_table_of ns))
    as [(Hr & Hf & Hdb & Hc & _) | (Hr & _ & Hc & _)].
  - split; [intros Hne; contradiction |].
    split; [intros Hne; contradiction |]. intros _. exact Hdb.
  - split; [intros _; split; assumption |].
    split; [intros _; exact Hc |]. intros Hne. contradiction.
Qed.

(** C1. When a write, in any of the three namespaces, of a value
    that survives JSON serialisation has succeeded and the store
    answers the read, reading the key back returns the value: with
    the cache entry of the write in place, and with that entry
    evicted, when the read parses the stored text again. *)
Theorem set_then_get_round_trip ns guild_id key v dflt text w :
  json_dumps lib v = Some text ->
  json_loads lib text = Some v ->
  fst (set_in lib f ns guild_id key v w) = Ok true ->
  Env.next_fault (snd (set_in lib f ns guild_id key v w)) = Env.Healthy ->
  fst (get_in lib f ns guild_id key dflt (snd (set_in lib f ns guild_id key v w))) = Ok v
  /\ fst (get_in lib f ns guild_id key dflt
            (Env.evict (cache_key (prefix_of ns) guild_id key)
               (snd (set_in lib f ns guild_id key v w)))) = Ok v.
Proof.
  intros Hdumps Hloads. rewrite set_in_set_value, get_in_get_value.
  destruct (set_value_cases (prefix_of ns) (table_of ns) guild_id key v w
              (key_value_table_of ns))
    as [(_ & _ & (text' & Ht & Hdb) & Hc & _) | (Hr & _)];
    [| intros Hok; rewrite Hr in Hok; discriminate].
  intros _ Hf. rewrite Hdumps in Ht. injection Ht as <-.
  set (w1 := snd (set_value lib E (prefix_of ns) (table_of ns) guild_id key v w))
    in *.
  assert (Hstore : forall w2,
    default VNone (Env.cache w2 !! cache_key (prefix_of ns) guild_id key) = VNone ->
    Env.next_fault w2 = Env.Healthy -> Env.db w2 = Env.db w1 ->
    fst (get_value lib E (prefix_of ns) (table_of ns) guild_id key dflt w2) = Ok v).
  { intros w2 Hmiss Hf2 Hdb2.
    eapply get_value_store_hit; eauto.
    - rewrite Hdb2. exact Hdb.
    - reflexivity. }
  split.
  - assert (Hcase : v = VNone \/ v <> VNone)
      by (destruct v; first [left; reflexivity | right; discriminate]).
    destruct Hcase as [-> | Hv].
    + apply Hstore; [rewrite Hc, lookup_insert_eq | exact Hf |]; reflexivity.
    + erewrite get_value_cache_hit; [reflexivity | | exact Hv].
      rewrite Hc. apply lookup_insert_eq.
  - apply Hstore; [| exact Hf | reflexivity].
    unfold Env.evict. cbn. rewrite lookup_delete_eq. reflexivity.
Qed.

(** *** Event toggles *)

Lemma get_log_event_enabled_run guild_id event_key d w :
  get_log_event_enabled E guild_id event_key d w
  = (Ok match Env.next_fault w with
        | Env.Healthy =>
            match fetched (Env.project ["enabled"]
                             <$> Env.db w !! (log_event_toggles, guild_id, event_key)) with
            | Some r => default (VBool d) (dict_get "enabled" r)
            | None => VBool d
            end
        | _ => VBool d
        end,
     Env.pop_fault
       (Env.record_call (Env.Query (select_enabled guild_id event_key)) w)).
Proof.
  destruct w as [c db fs clk tr].
  unfold get_log_event_enabled, bind, try_except, E; cbn.
  destruct fs as [| [| | e] fs]; cbn; try reflexivity.
  all: destruct (db !! (log_event_toggles, guild_id, event_key)) as [r |];
    cbn; [| reflexivity].
  all: unfold Env.project; cbn; destruct (dict_get "enabled" r); reflexivity.
Qed.

Lemma set_log_event_enabled_run guild_id event_key enabled w :
  set_log_event_enabled E guild_id event_key enabled w
  = let w' := Env.pop_fault
                (Env.record_call
                   (Env.Upsert log_event_toggles
                      (toggle_row guild_id event_key enabled)) w) in
    match Env.next_fault w with
    | Env.Healthy =>
        (Ok true,
         Env.with_db
           <[(log_event_toggles, guild_id, event_key)
             := toggle_row guild_id event_key enabled]> w')
    | _ => (Ok false, w')
    end.
Proof.
  destruct w as [c db fs clk tr].
  unfold set_log_event_enabled, try_except, E; cbn.
  destruct fs as [| [| | e] fs]; reflexivity.
Qed.

(** C3, as the code has it. The toggle accessors do not use the
    cache: for every guild and event key the read makes exactly one
    call, a store query, and the write makes exactly one call, an
    upsert; neither reads or changes a cache entry. *)
Theorem toggle_accessors_bypass_cache guild_id event_key d enabled w :
  Env.trace (snd (get_log_event_enabled E guild_id event_key d w))
  = (Env.trace w ++ [Env.Query (select_enabled guild_id event_key)])%list
  /\ Env.cache (snd (get_log_event_enabled E guild_id event_key d w))
     = Env.cache w
  /\ Env.trace (snd (set_log_event_enabled E guild_id event_key enabled w))
     = (Env.trace w
        ++ [Env.Upsert log_event_toggles
              (toggle_row guild_id event_key enabled)])%list
  /\ Env.cache (snd (set_log_event_enabled E guild_id event_key enabled w))
     = Env.cache w.
Proof.
  rewrite get_log_event_enabled_run, set_log_event_enabled_run. cbv zeta.
  destruct (Env.next_fault w); repeat split; reflexivity.
Qed.

(** C4. A toggle that has no row reads as enabled under the default
    [True]; once a write of [False] has succeeded, the toggle reads
    as disabled whatever default the reader gives, as long as the
    store answers the read, and it does so too after every cache
    entry has been dropped. *)
Theorem toggle_default_then_disabled guild_id event_key d w :
  (Env.db w !! (log_event_toggles, guild_id, event_key) = None ->
     fst (get_log_event_enabled E guild_id event_key true w) = Ok (VBool true))
  /\ (fst (set_log_event_enabled E guild_id event_key false w) = Ok true ->
      Env.next_fault (snd (set_log_event_enabled E guild_id event_key false w))
      = Env.Healthy ->
      fst (get_log_event_enabled E guild_id event_key d
             (snd (set_log_event_enabled E guild_id event_key false w)))
      = Ok (VBool false)
      /\ fst (get_log_event_enabled E guild_id event_key d
                (Env.clear_cache
                   (snd (set_log_event_enabled E guild_id event_key false w))))
         = Ok (VBool false)).
Proof.
  split.
  - intros Hd. rewrite get_log_event_enabled_run, Hd. cbn.
    destruct (Env.next_fault w); reflexivity.
  - rewrite set_log_event_enabled_run. cbv zeta.
    destruct (Env.next_fault w) eqn:Hw; cbn [fst snd]; try discriminate.
    intros _ Hf. rewrite !get_log_event_enabled_run.
    change (Env.next_fault (Env.clear_cache ?x)) with (Env.next_fault x).
    rewrite Hf. cbn. rewrite lookup_insert_eq. split; reflexivity.
Qed.

End OnReferenceEnvironment.

(** ** The accessors on an arbitrary environment *)

Section OnAnyEnvironment.
Context {W : Type} (lib : PyLib) (env : Environment W).

Lemma bind_returns {A B} (m : M W A) (k : A -> M W B) w a w' :
  m w = (Ok a, w') -> returns (k a) w' -> returns (bind m k) w.
Proof. unfold returns, bind. intros -> H. exact H. Qed.

Lemma returns_run {A} (m : M W A) w :
  returns m w -> exists a w', m w = (Ok a, w').
Proof.
  intros [a Ha]. destruct (m w) as [res w'] eqn:Hm. simpl in Ha. subst res.
  eauto.
Qed.

Lemma get_value_returns prefix t guild_id key dflt w :
  returns (get_cache env (cache_key prefix guild_id key)) w ->
  returns (get_value lib env prefix t guild_id key dflt) w.
Proof.
  intros Hc. unfold get_value.
  destruct (returns_run _ _ Hc) as (v & w' & Hv).
  eapply bind_returns; [exact Hv |].
  destruct v; auto with returns.
  apply try_except_returns. auto with returns.
Qed.

Lemma set_value_returns prefix t guild_id key v w :
  returns (set_value lib env prefix t guild_id key v) w.
Proof. apply try_except_returns. auto with returns. Qed.

Lemma get_all_values_returns t guild_id w :
  returns (get_all_values lib env t guild_id) w.
Proof. apply try_except_returns. auto with returns. Qed.

Lemma get_guild_api_key_returns guild_id w :
  returns (get_cache env (api_key_cache_key guild_id)) w ->
  cached_key_well_formed env guild_id w ->
  returns (get_guild_api_key lib env guild_id) w.
Proof.
  intros Hc Hwf. unfold get_guild_api_key.
  destruct (returns_run _ _ Hc) as (v & w' & Hv).
  eapply bind_returns; [exact Hv |].
  destruct (truthy v) eqn:Htruthy.
  - destruct (Hwf v w' Hv Htruthy) as [g Hg].
    exists (Some g). unfold bind, lift_result. rewrite Hg. reflexivity.
  - apply try_except_returns. auto with returns.
Qed.

(** A decryption failure on the populated secret of the stored row
    is answered with [None]. *)
Lemma get_guild_api_key_decrypt_failure guild_id w v w1 r w2 c e :
  get_cache env (api_key_cache_key guild_id) w = (Ok v, w1) ->
  truthy v = false ->
  execute_query_one env (select_guild_api_key guild_id) w1 = (Ok (Some r), w2) ->
  fst (fernet_decrypt env c w2) = Raised e ->
  populated r "encrypted_api_key" = Some (VStr c)
  \/ (populated r "encrypted_api_key" = None
      /\ exists text kvs,
           populated r "encrypted_github_auth_info" = Some (VStr text)
           /\ json_loads lib text = Some (VDict kvs)
           /\ dict_get "data" kvs = Some (VStr c)) ->
  fst (get_guild_api_key lib env guild_id w) = Ok None.
Proof.
  intros Hc Hv Hq He Hrow.
  unfold get_guild_api_key, bind at 1. rewrite Hc, Hv.
  unfold try_except, bind at 1. rewrite Hq.
  assert (Hfetched : fetched (Some r) = Some r).
  { destruct r as [| x r]; [| reflexivity].
    destruct Hrow as [H | (_ & ? & ? & H & _)]; discriminate H. }
  rewrite Hfetched.
  destruct (fernet_decrypt env c w2) as [res w3] eqn:Hd.
  simpl in He. subst res.
  destruct Hrow as [Hk | (Hk & text & kvs & Hg & Hl & Hdata)].
  - unfold bind at 1. rewrite Hk. unfold bind at 1.
    unfold decrypt_data. rewrite Hd. reflexivity.
  - unfold bind at 1. rewrite Hk. unfold bind at 1, ret at 1.
    unfold bind at 1. rewrite Hg.
    unfold bind at 1, loads at 1. rewrite Hl. unfold ret at 1.
    unfold bind at 1, getitem. rewrite Hdata. unfold ret at 1.
    unfold bind at 1, decrypt_data. rewrite Hd. reflexivity.
Qed.

(** C2, as the code has it. Whatever the store and the cipher do,
    returning anything or raising anything, and whatever the writes
    and the invalidations of the cache do, the setters, the listings,
    the toggle accessors and the removal of an API key return: a
    boolean or a dictionary. The four readers that start with a cache
    lookup, which they make before their [try] block, return whenever
    that lookup returns, whatever it returns; the read of an API key
    provided moreover that the cached entry, if any, has the fields
    of a key. When the decryption of the populated secret of the
    stored row raises, the read of an API key returns [None]. *)
Theorem accessors_contain_exceptions
    guild_id key dflt value event_key d enabled api_provider key_data w :
  (returns (get_cache env (cache_key "guild_config" guild_id key)) w ->
   returns (get_guild_config lib env guild_id key dflt) w)
  /\ returns (set_guild_config lib env guild_id key value) w
  /\ returns (get_all_guild_config lib env guild_id) w
  /\ (returns (get_cache env (cache_key "guild_setting" guild_id key)) w ->
      returns (get_guild_setting lib env guild_id key dflt) w)
  /\ returns (set_guild_setting lib env guild_id key value) w
  /\ (returns (get_cache env (cache_key "botdetect_config" guild_id key)) w ->
      returns (get_botdetect_config lib env guild_id key dflt) w)
  /\ returns (set_botdetect_config lib env guild_id key value) w
  /\ returns (get_all_botdetect_config lib env guild_id) w
  /\ returns (get_log_event_enabled env guild_id event_key d) w
  /\ returns (set_log_event_enabled env guild_id event_key enabled) w
  /\ returns (get_all_log_event_toggles env guild_id) w
  /\ returns (set_guild_api_key lib env guild_id api_provider key_data) w
  /\ returns (remove_guild_api_key env guild_id) w
  /\ (returns (get_cache env (api_key_cache_key guild_id)) w ->
      cached_key_well_formed env guild_id w ->
      returns (get_guild_api_key lib env guild_id) w)
  /\ (forall v w1 r w2 c e,
        get_cache env (api_key_cache_key guild_id) w = (Ok v, w1) ->
        truthy v = false ->
        execute_query_one env (select_guild_api_key guild_id) w1
        = (Ok (Some r), w2) ->
        fst (fernet_decrypt env c w2) = Raised e ->
        populated r "encrypted_api_key" = Some (VStr c)
        \/ (populated r "encrypted_api_key" = None
            /\ exists text kvs,
                 populated r "encrypted_github_auth_info" = Some (VStr text)
                 /\ json_loads lib text = Some (VDict kvs)
                 /\ dict_get "data" kvs = Some (VStr c)) ->
        fst (get_guild_api_key lib env guild_id w) = Ok None).
Proof.
  repeat match goal with |- _ /\ _ => split end.
  1, 4, 6: apply get_value_returns.
  1, 3, 4: apply set_value_returns.
  1, 2: apply get_all_values_returns.
  1, 2, 3, 4, 5: apply try_except_returns; auto with returns.
  - apply get_guild_api_key_returns.
  - intros v w1 r w2 c e. apply get_guild_api_key_decrypt_failure.
Qed.

(** C10. A payload whose shape does not fit the provider, a
    dictionary for a provider other than "github_copilot" or a
    value that is neither a string nor a dictionary, makes
    [set_guild_api_key] return [False] in the world it was called
    in: no call reaches the store, the cache or the cipher. *)
Theorem mismatched_key_data_is_rejected guild_id api_provider key_data w :
  (is_dict key_data = true /\ api_provider <> "github_copilot")
  \/ (is_dict key_data = false /\ is_str key_data = false) ->
  set_guild_api_key lib env guild_id api_provider key_data w = (Ok false, w).
Proof.
  intros Hshape. unfold set_guild_api_key, try_except, bind.
  assert (Hfirst : String.eqb api_provider "github_copilot" && is_dict key_data
                   = false).
  { destruct Hshape as [[_ Hp] | [Hd _]].
    - apply String.eqb_neq in Hp. rewrite Hp. reflexivity.
    - rewrite Hd. apply andb_false_r. }
  assert (Hsecond : is_str key_data = false).
  { destruct Hshape as [[Hd _] | [_ Hs]]; [| exact Hs].
    destruct key_data; simpl in *; congruence. }
  rewrite Hfirst, Hsecond. reflexivity.
Qed.
End OnAnyEnvironment.

(** ** Structured credentials *)

Section Credentials.
Context (lib : PyLib) (f : Env.Fernet).
Let E := Env.environment f.

(** Writing a structured credential: on success the row holds the
    wrapped ciphertext and the cache entry of the guild is gone. *)
Lemma set_guild_api_key_github guild_id kvs text c wrapper w :
  json_dumps lib (apply_default (datetime_converter lib) (VDict kvs)) = Some text ->
  Env.encrypt f text = Some c ->
  json_dumps lib (VDict [("data", VStr c)]) = Some wrapper ->
  fst (set_guild_api_key lib E guild_id "github_copilot" (VDict kvs) w) = Ok true ->
  let w1 := snd (set_guild_api_key lib E guild_id "github_copilot" (VDict kvs) w) in
  Env.cache w1 !! api_key_cache_key guild_id = None
  /\ (exists created updated,
        Env.db w1 !! (guild_api_keys, guild_id, "")
        = Some (github_auth_row guild_id wrapper created updated)).
Proof.
  intros Hd He Hw. destruct w as [ca db fs clk tr].
  unfold set_guild_api_key, try_except, bind, dumps, encrypt_data, E.
  cbn -[apply_default]. rewrite Hd. cbn -[apply_default].
  unfold Env.fernet_encrypt. rewrite He. cbn -[apply_default].
  rewrite Hw. cbn -[apply_default].
  destruct fs as [| [| | e] fs]; cbn -[apply_default]; try discriminate.
  all: intros _; split; [apply lookup_delete_eq |].
  all: do 2 eexists; rewrite lookup_insert_eq; reflexivity.
Qed.

(** Reading a structured credential back from a healthy store. *)
Lemma get_guild_api_key_github guild_id kvs t text c wrapper created updated w :
  dict_get "expires_at" kvs = Some (VStr (isoformat lib t)) ->
  Env.cache w !! api_key_cache_key guild_id = None ->
  Env.next_fault w = Env.Healthy ->
  Env.db w !! (guild_api_keys, guild_id, "")
  = Some (github_auth_row guild_id wrapper created updated) ->
  wrapper <> "" ->
  json_loads lib wrapper = Some (VDict [("data", VStr c)]) ->
  Env.decrypt f c = Some text ->
  json_loads lib text = Some (VDict kvs) ->
  fromisoformat lib (isoformat lib t) = Some t ->
  fst (get_guild_api_key lib E guild_id w)
  = Ok (Some {| key_guild_id := VInt guild_id;
                key_api_provider := VStr "github_copilot";
                key_api_key := VNone;
                key_github_auth_info :=
                  VDict (dict_set "expires_at" (VDatetime t) kvs);
                key_created_at := created;
                key_updated_at := updated |}).
Proof.
  intros Hexp Hc Hf Hdb Hne Hlw Hdec Hlt Hiso.
  destruct w as [ca db fs clk tr]. cbn in Hc, Hf, Hdb.
  unfold get_guild_api_key, bind at 1, E. cbn. rewrite Hc. cbn.
  assert (Hfs : Env.next_fault (Env.mk_world ca db fs clk tr) = Env.Healthy)
    by exact Hf.
  unfold try_except, bind at 1. cbn.
  destruct fs as [| [| | e] fs]; cbn in Hf; try discriminate.
  all: cbn; rewrite Hdb; cbn.
  all: apply String.eqb_neq in Hne; unfold populated; cbn; rewrite Hne; cbn.
  all: unfold bind, loads, decrypt_data, getitem; cbn.
  all: rewrite Hlw; cbn; unfold Env.fernet_decrypt; rewrite Hdec; cbn.
  all: rewrite Hlt; cbn.
  all: rewrite Hexp; cbn.
  all: rewrite Hiso; reflexivity.
Qed.

(** C7, as the code has it. A structured credential whose
    top-level field "expires_at" is a datetime, stored for the
    provider "github_copilot" and read back from the store, has
    that datetime again under "expires_at", given that the JSON
    texts, the ciphertext and the ISO text of the timestamp parse
    back to what they were written from. Every other field comes
    back as it was serialised: a datetime elsewhere in the document
    comes back as its ISO string. *)
Theorem expires_at_round_trip guild_id kvs t text c wrapper w :
  dict_get "expires_at" kvs = Some (VDatetime t) ->
  json_dumps lib (apply_default (datetime_converter lib) (VDict kvs)) = Some text ->
  json_loads lib text = Some (apply_default (datetime_converter lib) (VDict kvs)) ->
  Env.encrypt f text = Some c ->
  Env.decrypt f c = Some text ->
  json_dumps lib (VDict [("data", VStr c)]) = Some wrapper ->
  json_loads lib wrapper = Some (VDict [("data", VStr c)]) ->
  wrapper <> "" ->
  fromisoformat lib (isoformat lib t) = Some t ->
  fst (set_guild_api_key lib E guild_id "github_copilot" (VDict kvs) w) = Ok true ->
  Env.next_fault
    (snd (set_guild_api_key lib E guild_id "github_copilot" (VDict kvs) w))
  = Env.Healthy ->
  exists g stored,
    fst (get_guild_api_key lib E guild_id
           (snd (set_guild_api_key lib E guild_id "github_copilot" (VDict kvs) w)))
    = Ok (Some g)
    /\ key_github_auth_info g = VDict stored
    /\ dict_get "expires_at" stored = Some (VDatetime t)
    /\ (forall k, k <> "expires_at" ->
          dict_get k stored
          = apply_default (datetime_converter lib) <$> dict_get k kvs).
Proof.
  intros Hexp Hdt Hlt Henc Hdec Hdw Hlw Hne Hiso Hok Hf.
  destruct (set_guild_api_key_github guild_id kvs text c wrapper w
              Hdt Henc Hdw Hok) as (Hcache & created & updated & Hdb).
  simpl apply_default in Hlt.
  set (parsed := map (fun kv : string * pyval =>
                        (fst kv, apply_default (datetime_converter lib) (snd kv)))
                     kvs) in *.
  exists {| key_guild_id := VInt guild_id;
            key_api_provider := VStr "github_copilot";
            key_api_key := VNone;
            key_github_auth_info :=
              VDict (dict_set "expires_at" (VDatetime t) parsed);
            key_created_at := created;
            key_updated_at := updated |},
         (dict_set "expires_at" (VDatetime t) parsed).
  split; [| split; [reflexivity | split]].
  - eapply get_guild_api_key_github; eauto. unfold parsed.
    rewrite dict_get_map_values, Hexp. reflexivity.
  - apply dict_get_set_eq.
  - intros k Hk. rewrite dict_get_set_ne by congruence.
    apply dict_get_map_values.
Qed.
End Credentials.

(** ** Gating of the relay *)

Section RelayGating.
Import Relay.
Context {S : Type} (sm : SettingsManager S) (discord : Discord) (self_bot : Bot).

Lemma dispatch_dropped ev c :
  relayed_for ev = None -> dispatch sm discord self_bot ev c = (Ok tt, c).
Proof.
  destruct ev as [m | m | g u | g u | m | b a]; simpl; try discriminate.
  - unfold on_message_delete. destruct (guild m), (bot (author m));
      first [discriminate | reflexivity].
  - unfold on_message_edit.
    destruct (guild a), (bot (author a) || String.eqb (content b) (content a));
      first [discriminate | reflexivity].
Qed.

Lemma dispatch_relayed ev g :
  relayed_for ev = Some g ->
  dispatch sm discord self_bot ev
  = relay sm discord self_bot g (event_key ev) (view_of self_bot ev).
Proof.
  destruct ev as [m | m | g' u | g' u | m | b a]; simpl.
  1, 2, 3, 4: intros [= <-]; reflexivity.
  - unfold on_message_delete. destruct (bot (author m)); [discriminate |].
    intros ->. reflexivity.
  - unfold on_message_edit.
    destruct (bot (author a) || String.eqb (content b) (content a));
      [discriminate |].
    intros ->. reflexivity.
Qed.

Lemma relay_no_target g key embed c url s1 :
  get_logging_webhook sm g (settings c) = (Ok url, s1) ->
  truthy url = false ->
  outbox (snd (relay sm discord self_bot g key embed c)) = outbox c.
Proof.
  intros Hu Ht.
  unfold relay, _check_log_enabled, bind, on_settings.
  rewrite Hu, Ht. reflexivity.
Qed.

Lemma relay_toggled_off g key embed c url s1 en s2 :
  get_logging_webhook sm g (settings c) = (Ok url, s1) ->
  truthy url = true ->
  is_log_event_enabled sm g key true s1 = (Ok en, s2) ->
  truthy en = false ->
  outbox (snd (relay sm discord self_bot g key embed c)) = outbox c.
Proof.
  intros Hu Ht He Hen.
  unfold relay, _check_log_enabled, bind, on_settings.
  rewrite Hu, Ht. simpl. rewrite He. simpl. rewrite Hen. reflexivity.
Qed.

Lemma relay_session_unavailable g key embed c :
  session c <> SessionOpen ->
  outbox (snd (relay sm discord self_bot g key embed c)) = outbox c.
Proof.
  intros Hs.
  unfold relay, _check_log_enabled, _send_log_embed, bind, on_settings.
  destruct (get_logging_webhook sm g (settings c)) as [[url | e] s1];
    [| reflexivity].
  destruct (truthy url); simpl; [| reflexivity].
  destruct (is_log_event_enabled sm g key true s1) as [[en | e] s2];
    [| reflexivity].
  simpl. destruct (truthy en); simpl; [| reflexivity].
  destruct (session c); first [contradiction | reflexivity].
Qed.

Lemma relay_delivers_once g key embed c url s1 en s2 target s3 :
  get_logging_webhook sm g (settings c) = (Ok url, s1) ->
  truthy url = true ->
  is_log_event_enabled sm g key true s1 = (Ok en, s2) ->
  truthy en = true ->
  session c = SessionOpen ->
  get_logging_webhook sm g s2 = (Ok (VStr target), s3) ->
  target <> "" ->
  from_url discord target = true ->
  outbox (snd (relay sm discord self_bot g key embed c))
  = (outbox c ++ [{| sent_to := target; sent_view := embed;
                     sent_as := bot_name self_bot ++ " Logs" |}])%list.
Proof.
  intros Hu Ht He Hen Hs Hu' Hne Hok.
  unfold relay, _check_log_enabled, _send_log_embed, bind, on_settings.
  rewrite Hu, Ht. simpl. rewrite He. simpl. rewrite Hen. simpl.
  rewrite Hs, Hu'. simpl.
  apply String.eqb_neq in Hne. rewrite Hne. simpl.
  unfold try_except, webhook_send. rewrite Hok. simpl.
  destruct (send_fails discord _ _); reflexivity.
Qed.

(** C8, as the code has it. An event its listener drops (a private
    message, a message of a bot, an edit that leaves the text as it
    was) makes no outbound call. For any other event: when the
    guild has no delivery target, none; when it has one and the key
    of the event is toggled off, none; when it has one that the
    webhook client accepts, the key is enabled and the HTTP session
    of the cog is open, exactly one, carrying the notification of
    the event, whether the call then fails or not. While the cog
    has no session, or a closed one, no event makes an outbound
    call, whatever the settings manager answers. *)
Theorem relay_gating ev c :
  (relayed_for ev = None -> dispatch sm discord self_bot ev c = (Ok tt, c))
  /\ (forall g url s1,
        relayed_for ev = Some g ->
        get_logging_webhook sm g (settings c) = (Ok url, s1) ->
        truthy url = false ->
        outbox (snd (dispatch sm discord self_bot ev c)) = outbox c)
  /\ (forall g url s1 en s2,
        relayed_for ev = Some g ->
        get_logging_webhook sm g (settings c) = (Ok url, s1) ->
        truthy url = true ->
        is_log_event_enabled sm g (event_key ev) true s1 = (Ok en, s2) ->
        truthy en = false ->
        outbox (snd (dispatch sm discord self_bot ev c)) = outbox c)
  /\ (forall g url s1 en s2 target s3,
        relayed_for ev = Some g ->
        get_logging_webhook sm g (settings c) = (Ok url, s1) ->
        truthy url = true ->
        is_log_event_enabled sm g (event_key ev) true s1 = (Ok en, s2) ->
        truthy en = true ->
        session c = SessionOpen ->
        get_logging_webhook sm g s2 = (Ok (VStr target), s3) ->
        target <> "" ->
        from_url discord target = true ->
        outbox (snd (dispatch sm discord self_bot ev c))
        = (outbox c
           ++ [{| sent_to := target; sent_view := view_of self_bot ev;
                  sent_as := bot_name self_bot ++ " Logs" |}])%list)
  /\ (session c <> SessionOpen ->
      outbox (snd (dispatch sm discord self_bot ev c)) = outbox c).
Proof.
  split; [apply dispatch_dropped |].
  split; [| split; [| split]].
  - intros g url s1 Hg. rewrite (dispatch_relayed ev g Hg).
    apply relay_no_target.
  - intros g url s1 en s2 Hg. rewrite (dispatch_relayed ev g Hg).
    apply relay_toggled_off.
  - intros g url s1 en s2 target s3 Hg. rewrite (dispatch_relayed ev g Hg).
    apply relay_delivers_once.
  - intros Hs. destruct (relayed_for ev) as [g |] eqn:Hg.
    + rewrite (dispatch_relayed ev g Hg). apply relay_session_unavailable.
      exact Hs.
    + rewrite (dispatch_dropped ev c Hg). reflexivity.
Qed.
End RelayGating.


(** ** The theorems at concrete inputs *)

Section Witnesses.
Import Relay Examples.

Lemma set_then_get_round_trip_witness :
  fst (get_in lib RefLib.fernet config 7 "policy" VNone
         (snd (set_in lib RefLib.fernet config 7 "policy" document fresh)))
  = Ok document
  /\ fst (get_in lib RefLib.fernet config 7 "policy" VNone
            (Env.evict (cache_key (prefix_of config) 7 "policy")
               (snd (set_in lib RefLib.fernet config 7 "policy" document fresh))))
     = Ok document.
Proof.
  apply (set_then_get_round_trip lib RefLib.fernet config 7 "policy"
           document VNone document_text fresh);
    vm_compute; reflexivity.
Defined.

Lemma accessors_contain_exceptions_witness :
  returns (get_guild_config lib E 7 "policy" VNone) crashing
  /\ returns (set_guild_config lib E 7 "policy" document) crashing
  /\ returns (set_guild_config lib cache_down 7 "policy" document) fresh
  /\ returns (get_guild_api_key lib E 7) warm
  /\ fst (get_guild_api_key lib E 7 corrupted) = Ok None.
Proof.
  split; [| split; [| split; [| split]]].
  - apply (accessors_contain_exceptions lib E 7 "policy" VNone document
             "message_delete" true true "openai" VNone crashing).
    exists VNone. reflexivity.
  - apply (accessors_contain_exceptions lib E 7 "policy" VNone document
             "message_delete" true true "openai" VNone crashing).
  - apply (accessors_contain_exceptions lib cache_down 7 "policy" VNone document
             "message_delete" true true "openai" VNone fresh).
  - destruct (accessors_contain_exceptions lib E 7 "policy" VNone document
                "message_delete" true true "openai" VNone warm)
      as (_ & _ & _ & _ & _ & _ & _ & _ & _ & _ & _ & _ & _ & H & _).
    apply H.
    + eexists. vm_compute. reflexivity.
    + intros v w' Hget Htruthy.
      vm_compute in Hget. injection Hget as <- _.
      eexists. reflexivity.
  - destruct (accessors_contain_exceptions lib E 7 "policy" VNone document
                "message_delete" true true "openai" VNone corrupted)
      as (_ & _ & _ & _ & _ & _ & _ & _ & _ & _ & _ & _ & _ & _ & H).
    eapply (H VNone _ _ _ "not-a-token" (CryptoError "InvalidToken")).
    + reflexivity.
    + reflexivity.
    + reflexivity.
    + reflexivity.
    + left. reflexivity.
Defined.

Lemma toggle_default_then_disabled_witness :
  fst (get_log_event_enabled E 7 "message_delete" true fresh) = Ok (VBool true)
  /\ fst (get_log_event_enabled E 7 "message_delete" true
            (snd (set_log_event_enabled E 7 "message_delete" false fresh)))
     = Ok (VBool false)
  /\ fst (get_log_event_enabled E 7 "message_delete" true
            (Env.clear_cache
               (snd (set_log_event_enabled E 7 "message_delete" false fresh))))
     = Ok (VBool false).
Proof.
  destruct (toggle_default_then_disabled RefLib.fernet 7 "message_delete"
              true fresh) as [Hdefault Hdisabled].
  split; [apply Hdefault; reflexivity |].
  apply Hdisabled; reflexivity.
Defined.

Lemma cache_written_only_after_store_success_witness :
  (fst (set_in lib RefLib.fernet config 7 "policy" document refusing) = Ok false
   /\ Env.cache (snd (set_in lib RefLib.fernet config 7 "policy" document refusing))
      = Env.cache refusing)
  /\ (fst (set_in lib RefLib.fernet setting 7 "policy" document crashing) = Ok false
      /\ Env.cache (snd (set_in lib RefLib.fernet setting 7 "policy" document crashing))
         = Env.cache crashing)
  /\ exists text,
       json_dumps lib document = Some text
       /\ Env.db (snd (set_in lib RefLib.fernet botdetect 7 "policy" document fresh))
          !! (table_of botdetect, 7, "policy")
          = Some [("guild_id", VInt 7); ("key", VStr "policy");
                  ("value", VStr text)].
Proof.
  split; [| split].
  - apply (cache_written_only_after_store_success lib RefLib.fernet
             config 7 "policy" document refusing).
    discriminate.
  - apply (cache_written_only_after_store_success lib RefLib.fernet
             setting 7 "policy" document crashing).
    discriminate.
  - apply (cache_written_only_after_store_success lib RefLib.fernet
             botdetect 7 "policy" document fresh).
    intros Heq.
    apply (f_equal (fun m => m !! cache_key (prefix_of botdetect) 7 "policy"))
      in Heq.
    vm_compute in Heq. discriminate.
Defined.

Lemma total_miss_returns_default_uncached_witness :
  fst (get_in lib RefLib.fernet config 7 "policy" (VInt 5) crashing)
  = Ok (VInt 5)
  /\ Env.cache (snd (get_in lib RefLib.fernet config 7 "policy" (VInt 5) crashing))
     = Env.cache crashing.
Proof.
  apply (total_miss_returns_default_uncached lib RefLib.fernet
           config 7 "policy" (VInt 5) crashing); reflexivity.
Defined.

Lemma mismatched_key_data_is_rejected_witness :
  set_guild_api_key lib E 7 "openai" (VDict credential) fresh = (Ok false, fresh)
  /\ set_guild_api_key lib E 7 "github_copilot" (VInt 3) fresh = (Ok false, fresh).
Proof.
  split.
  - apply (mismatched_key_data_is_rejected lib E 7 "openai"
             (VDict credential) fresh).
    left. split; [reflexivity | discriminate].
  - apply (mismatched_key_data_is_rejected lib E 7 "github_copilot"
             (VInt 3) fresh).
    right. split; reflexivity.
Defined.

Lemma expires_at_round_trip_witness :
  exists g stored,
    fst (get_guild_api_key lib E 7
           (snd (set_guild_api_key lib E 7 "github_copilot"
                   (VDict credential) fresh)))
    = Ok (Some g)
    /\ key_github_auth_info g = VDict stored
    /\ dict_get "expires_at" stored = Some (VDatetime noon)
    /\ (forall k, k <> "expires_at" ->
          dict_get k stored
          = apply_default (datetime_converter lib) <$> dict_get k credential).
Proof.
  apply (expires_at_round_trip lib RefLib.fernet 7 credential noon
           credential_text credential_token credential_wrapper fresh);
    first [discriminate | vm_compute; reflexivity].
Defined.

Lemma content_fields_are_clipped_witness :
  exists value,
    fields (message_delete_view openguard deleted) = [("Content", value)]
    /\ (String.length value <= 1000)%nat
    /\ exists p rest,
         content deleted = p ++ rest
         /\ String.length p = (1000 - 3)%nat
         /\ value = p ++ "...".
Proof.
  destruct (content_fields_are_clipped openguard deleted edited edited)
    as [[_ Hfield] _].
  destruct Hfield as (value & Hfields & Hlong & _); [discriminate |].
  exists value. split; [exact Hfields |].
  apply Hlong. apply Nat.ltb_lt. vm_compute. reflexivity.
Defined.

Lemma relay_gating_witness :
  dispatch manager client openguard
    (message_edit edited edited) (cog_on with_target SessionOpen)
  = (Ok tt, cog_on with_target SessionOpen)
  /\ outbox (snd (dispatch manager client openguard
                    (message_delete deleted) (cog_on fresh SessionOpen))) = []
  /\ outbox (snd (dispatch manager client openguard
                    (message_delete deleted)
                    (cog_on with_target_toggled_off SessionOpen))) = []
  /\ outbox (snd (dispatch manager client openguard
                    (message_delete deleted) (cog_on with_target SessionOpen)))
     = [{| sent_to := webhook_url;
           sent_view := view_of openguard (message_delete deleted);
           sent_as := "OpenGuard Logs" |}]
  /\ outbox (snd (dispatch manager client openguard
                    (message_delete deleted) (cog_on with_target SessionClosed)))
     = []
  /\ outbox (snd (dispatch manager client openguard
                    (message_delete deleted) (cog_on with_target NoSession)))
     = [].
Proof.
  split; [| split; [| split; [| split; [| split]]]].
  - apply (relay_gating manager client openguard
             (message_edit edited edited) (cog_on with_target SessionOpen)).
    reflexivity.
  - destruct (relay_gating manager client openguard
                (message_delete deleted) (cog_on fresh SessionOpen))
      as (_ & H & _).
    apply (H 7 VNone (snd (get_logging_webhook manager 7 fresh)));
      vm_compute; reflexivity.
  - destruct (relay_gating manager client openguard
                (message_delete deleted)
                (cog_on with_target_toggled_off SessionOpen))
      as (_ & _ & H & _).
    apply (H 7 (VStr webhook_url)
             (snd (get_logging_webhook manager 7 with_target_toggled_off))
             (VBool false)
             (snd (is_log_event_enabled manager 7 "message_delete" true
                     (snd (get_logging_webhook manager 7
                             with_target_toggled_off)))));
      vm_compute; reflexivity.
  - destruct (relay_gating manager client openguard
                (message_delete deleted) (cog_on with_target SessionOpen))
      as (_ & _ & _ & H & _).
    apply (H 7 (VStr webhook_url)
             (snd (get_logging_webhook manager 7 with_target))
             (VBool true)
             (snd (is_log_event_enabled manager 7 "message_delete" true
                     (snd (get_logging_webhook manager 7 with_target))))
             webhook_url
             (snd (get_logging_webhook manager 7
                     (snd (is_log_event_enabled manager 7 "message_delete" true
                             (snd (get_logging_webhook manager 7
                                     with_target)))))));
      first [discriminate | vm_compute; reflexivity].
  - apply (relay_gating manager client openguard
             (message_delete deleted) (cog_on with_target SessionClosed)).
    discriminate.
  - apply (relay_gating manager client openguard
             (message_delete deleted) (cog_on with_target NoSession)).
    discriminate.
Defined.

(** ** Where the code departs from the specification *)

(** C2 fails for the cache. Behind a cache whose lookups raise, the
    read of a configuration value and the read of an API key raise
    what the lookup raised, over a healthy store: they do not return.
    And with a cached entry that lacks fields of a key, the read of
    an API key raises [TypeError] on building the key. *)
Lemma cache_failures_reach_the_caller :
  fst (get_guild_config lib cache_down 7 "policy" VNone fresh)
  = Raised (OtherError "ConnectionError")
  /\ ~ returns (get_guild_config lib cache_down 7 "policy" VNone) fresh
  /\ fst (get_guild_api_key lib cache_down 7 fresh)
     = Raised (OtherError "ConnectionError")
  /\ fst (get_cache E (api_key_cache_key 7) stale_key_cache)
     = Ok (VDict [("guild_id", VInt 7); ("api_provider", VStr "openai")])
  /\ fst (get_guild_api_key lib E 7 stale_key_cache) = Raised TypeError
  /\ ~ returns (get_guild_api_key lib E 7) stale_key_cache.
Proof.
  repeat split; try (vm_compute; reflexivity);
    intros [a Ha]; vm_compute in Ha; discriminate Ha.
Qed.

(** C3 fails. With the toggle "message_delete" of guild 7 stored
    as off, a first read is answered by the store and caches
    nothing, and the read that follows it queries the store again:
    each of the two reads makes one call, the query, and none on
    the cache. *)
Lemma toggle_read_never_uses_cache :
  fst (get_log_event_enabled E 7 "message_delete" true toggled_off)
  = Ok (VBool false)
  /\ Env.cache (snd (get_log_event_enabled E 7 "message_delete" true toggled_off))
     = ∅
  /\ calls_since toggled_off
       (snd (get_log_event_enabled E 7 "message_delete" true toggled_off))
     = [Env.Query (select_enabled 7 "message_delete")]
  /\ calls_since
       (snd (get_log_event_enabled E 7 "message_delete" true toggled_off))
       (snd (get_log_event_enabled E 7 "message_delete" true
               (snd (get_log_event_enabled E 7 "message_delete" true
                       toggled_off))))
     = [Env.Query (select_enabled 7 "message_delete")].
Proof. vm_compute. repeat split. Qed.

(** C7 fails. A credential with a datetime under "refreshed_at",
    stored for "github_copilot" and read back, has the ISO text of
    the timestamp under that key, not a datetime. *)
Lemma other_timestamp_comes_back_as_text :
  exists g stored,
    fst (get_guild_api_key lib E 7
           (snd (set_guild_api_key lib E 7 "github_copilot"
                   (VDict credential) fresh)))
    = Ok (Some g)
    /\ dict_get "refreshed_at" credential = Some (VDatetime noon)
    /\ key_github_auth_info g = VDict stored
    /\ dict_get "refreshed_at" stored = Some (VStr "2025-01-02T12:00:00").
Proof. vm_compute. do 2 eexists. repeat split. Qed.

(** C8 fails. Guild 7 has a delivery target the webhook client
    accepts and the key "message_delete" is enabled, so the toggle
    check passes; the cog has no HTTP session, or a closed one, and
    the deletion of a message of a member makes no outbound call. *)
Lemma no_session_no_delivery :
  fst (get_logging_webhook manager 7 with_target) = Ok (VStr webhook_url)
  /\ from_url client webhook_url = true
  /\ fst (_check_log_enabled manager 7 "message_delete"
            (cog_on with_target NoSession)) = Ok (VBool true)
  /\ relayed_for (message_delete deleted) = Some 7
  /\ outbox (snd (dispatch manager client openguard
                    (message_delete deleted) (cog_on with_target NoSession)))
     = []
  /\ fst (_check_log_enabled manager 7 "message_delete"
            (cog_on with_target SessionClosed)) = Ok (VBool true)
  /\ outbox (snd (dispatch manager client openguard
                    (message_delete deleted) (cog_on with_target SessionClosed)))
     = [].
Proof. vm_compute. repeat split. Qed.
End Witnesses.

(** * Further properties *)

Lemma GuildAPIKey_kwargs_dict g : GuildAPIKey_kwargs (GuildAPIKey_dict g) = Ok g.
Proof. destruct g. reflexivity. Qed.

(** ** Cache-aside reads *)

Section CacheAside.
Context (lib : PyLib) (f : Env.Fernet).
Let E := Env.environment f.

(** X1. A read, in any of the three namespaces, that finds a cached
    value other than [None] returns it and does nothing else: the only
    call is the cache lookup, and no query reaches the store. *)
Theorem warm_read_skips_store ns guild_id key dflt v w :
  Env.cache w !! cache_key (prefix_of ns) guild_id key = Some v ->
  v <> VNone ->
  get_in lib f ns guild_id key dflt w
  = (Ok v, Env.record_call
             (Env.CacheGet (cache_key (prefix_of ns) guild_id key)) w).
Proof.
  intros Hc Hv. rewrite get_in_get_value.
  apply get_value_cache_hit; assumption.
Qed.

(** X2. A read that misses the cache and finds the row in a healthy
    store returns the parsed value and caches it; when that value is
    not [None], the read that follows is answered by the cache
    alone. *)
Theorem store_hit_fills_cache ns guild_id key dflt r text v w :
  default VNone (Env.cache w !! cache_key (prefix_of ns) guild_id key) = VNone ->
  Env.next_fault w = Env.Healthy ->
  Env.db w !! (table_of ns, guild_id, key) = Some r ->
  dict_get "value" r = Some (VStr text) ->
  json_loads lib text = Some v ->
  let w1 := snd (get_in lib f ns guild_id key dflt w) in
  fst (get_in lib f ns guild_id key dflt w) = Ok v
  /\ Env.cache w1 = <[cache_key (prefix_of ns) guild_id key := v]> (Env.cache w)
  /\ (v <> VNone ->
      get_in lib f ns guild_id key dflt w1
      = (Ok v, Env.record_call
                 (Env.CacheGet (cache_key (prefix_of ns) guild_id key)) w1)).
Proof.
  intros Hc Hf Hd Hr Hl. rewrite get_in_get_value. cbv zeta.
  assert (Hrun : fst (get_value lib E (prefix_of ns) (table_of ns) guild_id key dflt w) = Ok v
    /\ Env.cache (snd (get_value lib E (prefix_of ns) (table_of ns) guild_id key dflt w))
       = <[cache_key (prefix_of ns) guild_id key := v]> (Env.cache w)).
  { destruct w as [c d fs clk tr]; cbn in *.
    unfold get_value, bind, try_except, E; cbn.
    rewrite Hc; cbn.
    destruct fs as [| [| | e] fs]; cbn in *; try discriminate.
    all: rewrite Hd; cbn; unfold Env.project; cbn; rewrite Hr; cbn.
    all: unfold bind, try_except; cbn; rewrite Hl; cbn; split; reflexivity. }
  destruct Hrun as [Hres Hcache].
  split; [exact Hres |]. split; [exact Hcache |].
  intros Hv. apply get_value_cache_hit; [| exact Hv].
  fold E. rewrite Hcache. apply lookup_insert_eq.
Qed.

(** X3. A cache entry that holds [None], as a write of [None]
    leaves it, counts as a miss: the read looks the key up in the
    cache and then queries the store. *)
Theorem cached_none_is_a_miss ns guild_id key dflt w :
  Env.cache w !! cache_key (prefix_of ns) guild_id key = Some VNone ->
  exists rest,
    Env.trace (snd (get_in lib f ns guild_id key dflt w))
    = (Env.trace w
       ++ Env.CacheGet (cache_key (prefix_of ns) guild_id key)
          :: Env.Query (select_value (table_of ns) guild_id key) :: rest)%list.
Proof.
  intros Hc. rewrite get_in_get_value.
  destruct w as [c d fs clk tr]; cbn in *.
  unfold get_value, bind, try_except; cbn. rewrite Hc; cbn.
  destruct fs as [| [| | e] fs]; cbn.
  1, 2: destruct (d !! (table_of ns, guild_id, key)) as [r |]; cbn;
    [unfold Env.project; cbn; destruct (dict_get "value" r) as [x |]; cbn |].
  all: try (rewrite <- app_assoc; eexists; reflexivity).
  all: unfold bind, try_except; cbn.
  all: destruct x; cbn; try (rewrite <- !app_assoc; eexists; reflexivity).
  all: unfold loads; destruct (json_loads lib s); cbn;
    rewrite <- !app_assoc; eexists; reflexivity.
Qed.
End CacheAside.

(** ** Values and texts that do not serialise or parse *)

Section UnwrittenValues.
Context {W : Type} (lib : PyLib) (env : Environment W).

(** X5. A value that [json.dumps] rejects is not written: each of
    the three setters returns [False] in the world it was called in,
    without a call on the store or on the cache. *)
Theorem unserialisable_value_is_not_written guild_id key v w :
  json_dumps lib v = None ->
  set_guild_config lib env guild_id key v w = (Ok false, w)
  /\ set_guild_setting lib env guild_id key v w = (Ok false, w)
  /\ set_botdetect_config lib env guild_id key v w = (Ok false, w).
Proof.
  intros Hd.
  unfold set_guild_config, set_guild_setting, set_botdetect_config, set_value,
    try_except, bind, dumps.
  rewrite Hd. repeat split; reflexivity.
Qed.
End UnwrittenValues.

Section RawTextAndToggles.
Context (lib : PyLib) (f : Env.Fernet).
Let E := Env.environment f.


(** X8. After a write of a toggle has succeeded, a read that the
    store answers returns the written state, [True] or [False],
    whatever default the reader gives. *)
Theorem toggle_set_then_get enabled guild_id event_key d w :
  fst (set_log_event_enabled E guild_id event_key enabled w) = Ok true ->
  Env.next_fault (snd (set_log_event_enabled E guild_id event_key enabled w))
  = Env.Healthy ->
  fst (get_log_event_enabled E guild_id event_key d
         (snd (set_log_event_enabled E guild_id event_key enabled w)))
  = Ok (VBool enabled).
Proof.
  unfold E. rewrite set_log_event_enabled_run. cbv zeta.
  destruct (Env.next_fault w) eqn:Hw; cbn [fst snd]; try discriminate.
  intros _ Hf. rewrite get_log_event_enabled_run.
  rewrite Hf. cbn. rewrite lookup_insert_eq. reflexivity.
Qed.

(** X9. When the store refuses the query or raises, the read of a
    toggle returns the default of the caller, whatever is stored. *)
Theorem toggle_read_fails_open guild_id event_key d w :
  Env.next_fault w <> Env.Healthy ->
  fst (get_log_event_enabled E guild_id event_key d w) = Ok (VBool d).
Proof.
  intros Hf. unfold E. rewrite get_log_event_enabled_run. cbn.
  destruct (Env.next_fault w); [contradiction | reflexivity | reflexivity].
Qed.
End RawTextAndToggles.

(** ** Listings *)

Section Listing.
Context {W : Type} (lib : PyLib) (env : Environment W).

Lemma dict_set_fresh k v (d : row) :
  ~ In k (map fst d) -> dict_set k v d = (d ++ [(k, v)])%list.
Proof.
  induction d as [| [k' v'] d IH]; simpl; [reflexivity |].
  intros Hnin. destruct (String.eqb_spec k k') as [-> | Hne]; [tauto |].
  rewrite IH by tauto. reflexivity.
Qed.

Lemma collect_config_run (kvs acc : row) (w : W) :
  List.NoDup (map fst acc ++ map fst kvs) ->
  collect_config lib (map listed_row kvs) acc w
  = (Ok (acc ++ map (fun kv => (fst kv, parsed lib (snd kv))) kvs)%list, w).
Proof.
  revert acc. induction kvs as [| [k v] kvs IH]; intros acc Hnd; simpl.
  - rewrite app_nil_r. reflexivity.
  - assert (Hfresh : ~ In k (map fst acc)).
    { apply NoDup_remove_2 in Hnd. intros Hin. apply Hnd.
      apply in_or_app. left. exact Hin. }
    assert (Hrest : forall p,
      collect_config lib (map listed_row kvs) (dict_set k p acc) w
      = (Ok (acc ++ (k, p) :: map (fun kv => (fst kv, parsed lib (snd kv))) kvs)%list,
         w)).
    { intros p. rewrite dict_set_fresh by exact Hfresh. rewrite IH.
      - rewrite <- app_assoc. reflexivity.
      - rewrite map_app. simpl. rewrite <- app_assoc. exact Hnd. }
    unfold bind, column, ret. simpl.
    destruct v; simpl; try apply Hrest.
    unfold try_except, loads. destruct (json_loads lib s); simpl; apply Hrest.
Qed.

Lemma get_all_values_listed t guild_id (kvs : row) w w1 :
  execute_query_all env (select_key_value t guild_id) w
  = (Ok (Some (map listed_row kvs)), w1) ->
  List.NoDup (map fst kvs) ->
  get_all_values lib env t guild_id w
  = (Ok (VDict (map (fun kv => (fst kv, parsed lib (snd kv))) kvs)), w1).
Proof.
  intros Hq Hnd. unfold get_all_values, try_except, bind at 1. rewrite Hq.
  unfold bind. rewrite collect_config_run by exact Hnd. reflexivity.
Qed.

(** X6. When the store lists rows with distinct keys, the listing
    of a guild's configuration (and of its bot-detection
    configuration) is the dictionary of these keys in the order of
    the rows, each with its value parsed from JSON, or as it is when
    it is not a string or does not parse. *)
Theorem listing_parses_each_row guild_id (kvs : row) w w1 :
  List.NoDup (map fst kvs) ->
  (execute_query_all env (select_key_value guild_config guild_id) w
   = (Ok (Some (map listed_row kvs)), w1) ->
   get_all_guild_config lib env guild_id w
   = (Ok (VDict (map (fun kv => (fst kv, parsed lib (snd kv))) kvs)), w1))
  /\ (execute_query_all env (select_key_value botdetect_config guild_id) w
      = (Ok (Some (map listed_row kvs)), w1) ->
      get_all_botdetect_config lib env guild_id w
      = (Ok (VDict (map (fun kv => (fst kv, parsed lib (snd kv))) kvs)), w1)).
Proof.
  intros Hnd. split; intros Hq; apply get_all_values_listed; assumption.
Qed.
End Listing.

Section ListingReference.
Context (lib : PyLib) (f : Env.Fernet).
Let E := Env.environment f.

Lemma collect_config_world rows acc (w : Env.world) :
  snd (collect_config lib rows acc w) = w.
Proof.
  revert acc. induction rows as [| r rows IH]; intros acc; simpl; [reflexivity |].
  unfold bind, column, ret.
  destruct (dict_get "value" r) as [v |]; [| reflexivity].
  assert (Hkey : forall p,
    snd (match dict_get "key" r with
         | Some k =>
             match k with
             | VStr k => collect_config lib rows (dict_set k p acc)
             | _ => raise TypeError
             end w
         | None => (Raised (KeyError "key"), w)
         end) = w).
  { intros p. destruct (dict_get "key" r) as [k |]; [| reflexivity].
    destruct k; try reflexivity. apply IH. }
  destruct v; simpl; try (destruct (dict_get "key" r) as [k |]; [| reflexivity];
                          destruct k; try reflexivity; apply IH).
  unfold try_except, loads. destruct (json_loads lib s); simpl;
    (destruct (dict_get "key" r) as [k |]; [| reflexivity];
     destruct k; try reflexivity; apply IH).
Qed.

Lemma get_all_values_world t guild_id w :
  snd (get_all_values lib E t guild_id w)
  = Env.pop_fault (Env.record_call (Env.Query (select_key_value t guild_id)) w).
Proof.
  unfold get_all_values, try_except, bind at 1, E.
  change (execute_query_all (Env.environment f) ?s w)
    with (Env.execute_query_all s w).
  unfold Env.execute_query_all.
  set (w1 := Env.pop_fault _). clearbody w1.
  destruct (Env.next_fault w); try reflexivity.
  unfold bind.
  pose proof (collect_config_world (Env.select_all (select_key_value t guild_id) w)
                [] w1) as Hpure.
  destruct (collect_config lib _ [] w1) as [[a | e] w2]; simpl in Hpure; subst w2;
    reflexivity.
Qed.

(** X7. The listing makes one call, the query, whatever the store
    answers, and leaves the cache as it was. *)
Theorem listing_bypasses_cache guild_id w :
  (Env.trace (snd (get_all_guild_config lib E guild_id w))
   = (Env.trace w ++ [Env.Query (select_key_value guild_config guild_id)])%list
   /\ Env.cache (snd (get_all_guild_config lib E guild_id w)) = Env.cache w)
  /\ (Env.trace (snd (get_all_botdetect_config lib E guild_id w))
      = (Env.trace w
         ++ [Env.Query (select_key_value botdetect_config guild_id)])%list
      /\ Env.cache (snd (get_all_botdetect_config lib E guild_id w))
         = Env.cache w).
Proof.
  unfold get_all_guild_config, get_all_botdetect_config.
  rewrite !get_all_values_world. repeat split; reflexivity.
Qed.
End ListingReference.

(** ** API keys *)

Section PlainKeys.
Context (lib : PyLib) (f : Env.Fernet).
Let E := Env.environment f.

(** X10. A plain string key, stored for any provider and read back
    from the store, is returned decrypted under [api_key], with the
    provider it was stored for and no structured credential; the
    write has dropped whatever the cache held for the guild. *)
Theorem plain_key_round_trip guild_id api_provider secret c w :
  Env.encrypt f secret = Some c ->
  c <> "" ->
  Env.decrypt f c = Some secret ->
  fst (set_guild_api_key lib E guild_id api_provider (VStr secret) w) = Ok true ->
  Env.next_fault (snd (set_guild_api_key lib E guild_id api_provider (VStr secret) w))
  = Env.Healthy ->
  exists g,
    fst (get_guild_api_key lib E guild_id
           (snd (set_guild_api_key lib E guild_id api_provider (VStr secret) w)))
    = Ok (Some g)
    /\ key_guild_id g = VInt guild_id
    /\ key_api_provider g = VStr api_provider
    /\ key_api_key g = VStr secret
    /\ key_github_auth_info g = VNone.
Proof.
  intros Henc Hne Hdec. destruct w as [ca db fs clk tr].
  unfold set_guild_api_key, try_except, bind at 1, E.
  rewrite andb_false_r. cbn [is_str].
  unfold bind at 1, encrypt_data. cbn. unfold Env.fernet_encrypt. rewrite Henc. cbn.
  apply String.eqb_neq in Hne.
  destruct fs as [| [| | e] fs]; cbn; try discriminate.
  all: intros _ Hf.
  all: unfold get_guild_api_key, bind at 1; cbn; rewrite lookup_delete_eq; cbn.
  all: unfold try_except, bind at 1; cbn.
  2: destruct fs as [| [| | e] fs]; cbn in Hf; try discriminate.
  all: cbn; rewrite lookup_insert_eq; cbn.
  all: unfold populated; cbn; rewrite Hne; cbn.
  all: unfold bind, decrypt_data; cbn; unfold Env.fernet_decrypt; rewrite Hdec; cbn.
  all: eexists; repeat split; reflexivity.
Qed.

(** X12. After [remove_guild_api_key] has returned [True], a read
    returns [None], however the store answers it. *)
Theorem removed_key_reads_as_absent guild_id w :
  fst (remove_guild_api_key E guild_id w) = Ok true ->
  fst (get_guild_api_key lib E guild_id (snd (remove_guild_api_key E guild_id w)))
  = Ok None.
Proof.
  destruct w as [ca db fs clk tr].
  unfold remove_guild_api_key, try_except, bind, E; cbn.
  assert (Hgone : forall (m : gmap (table * Z * string) row),
    filter (fun kr : table * Z * string * row =>
              ¬ (kr.1.1.1 = guild_api_keys /\ kr.1.1.2 = guild_id)) m
    !! (guild_api_keys, guild_id, "") = None).
  { intros m. apply map_lookup_filter_None. right. intros x _ Hp.
    apply Hp. split; reflexivity. }
  destruct fs as [| [| | e] fs]; cbn; try discriminate.
  all: intros _.
  all: unfold get_guild_api_key, bind at 1; cbn; rewrite lookup_delete_eq; cbn.
  all: unfold try_except, bind at 1; cbn.
  2: destruct fs as [| [| | e] fs]; cbn.
  all: rewrite ?Hgone; reflexivity.
Qed.
End PlainKeys.

(** ** Computations that leave the world as it is *)

Section WorldPreserving.
Context {W : Type}.

Lemma bind_pure_world {A B} (m : M W A) (k : A -> M W B) :
  (forall w, snd (m w) = w) -> (forall a w, snd (k a w) = w) ->
  forall w, snd (bind m k w) = w.
Proof.
  intros Hm Hk w. unfold bind. specialize (Hm w).
  destruct (m w) as [[a | e] w']; simpl in *; subst; [apply Hk | reflexivity].
Qed.

Lemma bind_pure_inv {A B} (m : M W A) (k : A -> M W B) w r w' :
  (forall w, snd (m w) = w) ->
  bind m k w = (Ok r, w') ->
  exists a, fst (m w) = Ok a /\ k a w = (Ok r, w').
Proof.
  intros Hm. unfold bind. specialize (Hm w).
  destruct (m w) as [[a | e] w1]; simpl in *; subst; [eauto | discriminate].
Qed.

End WorldPreserving.

Ltac pure_world :=
  repeat first
    [ progress intros
    | reflexivity
    | apply bind_pure_world
    | match goal with
      | |- context [match ?x with _ => _ end] => destruct x
      end ].

Section CachedKeys.
Context (lib : PyLib) (f : Env.Fernet).
Let E := Env.environment f.

Lemma decrypt_data_pure c w : snd (decrypt_data E c w) = w.
Proof.
  unfold decrypt_data, E; cbn. destruct c; try reflexivity.
  unfold Env.fernet_decrypt. destruct (Env.decrypt f s); reflexivity.
Qed.

Lemma loads_pure c (w : Env.world) : snd (loads lib c w) = w.
Proof. unfold loads. pure_world. Qed.

Lemma getitem_pure o k (w : Env.world) : snd (getitem o k w) = w.
Proof. unfold getitem. pure_world. Qed.

Lemma column_pure r k (w : Env.world) : snd (column r k w) = w.
Proof. unfold column. pure_world. Qed.

Lemma contains_pure k o (w : Env.world) : snd (contains k o w) = w.
Proof. unfold contains. pure_world. Qed.

Lemma setitem_pure o k v (w : Env.world) : snd (setitem o k v w) = w.
Proof. unfold setitem. pure_world. Qed.

Lemma datetime_fromisoformat_pure s (w : Env.world) :
  snd (datetime_fromisoformat lib s w) = w.
Proof. unfold datetime_fromisoformat. pure_world. Qed.

(** What a read that returned a key leaves in the cache. *)
Lemma get_guild_api_key_cached guild_id w g :
  fst (get_guild_api_key lib E guild_id w) = Ok (Some g) ->
  exists v,
    Env.cache (snd (get_guild_api_key lib E guild_id w))
    !! api_key_cache_key guild_id = Some v
    /\ truthy v = true /\ GuildAPIKey_kwargs v = Ok g.
Proof.
  destruct (get_guild_api_key lib E guild_id w) as [res w'] eqn:Hget.
  simpl. intros ->.
  unfold get_guild_api_key, bind at 1, E in Hget.
  change (get_cache (Env.environment f) ?k w) with (Env.get_cache k w) in Hget.
  unfold Env.get_cache in Hget.
  set (w0 := Env.record_call (Env.CacheGet (api_key_cache_key guild_id)) w) in Hget.
  set (cached := default VNone (Env.cache w !! api_key_cache_key guild_id)) in Hget.
  destruct (truthy cached) eqn:Hv.
  - unfold bind, lift_result in Hget.
    destruct (GuildAPIKey_kwargs cached) as [g' | e] eqn:Hk; [| discriminate].
    injection Hget as <- <-. exists cached. split; [| auto].
    subst cached. cbn.
    destruct (Env.cache w !! api_key_cache_key guild_id); [reflexivity |].
    discriminate Hv.
  - assert (Hbody : forall body : M Env.world (option GuildAPIKey),
      try_except body Exception (fun _ => ret None) w0 = (Ok (Some g), w') ->
      body w0 = (Ok (Some g), w')).
    { intros body. unfold try_except.
      destruct (body w0) as [[a | e] w1]; [auto | discriminate]. }
    apply Hbody in Hget. clear Hbody.
    unfold bind at 1 in Hget.
    change (execute_query_one (Env.environment f) ?s w0)
      with (Env.execute_query_one s w0) in Hget.
    unfold Env.execute_query_one in Hget.
    set (w1 := Env.pop_fault _) in Hget.
    clearbody w1.
    destruct (Env.next_fault w0); [| | discriminate]; cbv beta iota in Hget.
    all: destruct (fetched _) as [db_data |] in Hget; [| discriminate].
    all: apply bind_pure_inv in Hget as (api_key & _ & Hres);
      [| intros ?; pure_world; try apply decrypt_data_pure].
    all: apply bind_pure_inv in Hres as (info & _ & Hres);
      [| intros ?; pure_world;
         first [apply decrypt_data_pure | apply loads_pure | apply getitem_pure
               | apply contains_pure | apply setitem_pure
               | apply datetime_fromisoformat_pure]].
    all: apply bind_pure_inv in Hres as (g0 & _ & Hres); [| apply column_pure].
    all: apply bind_pure_inv in Hres as (p & _ & Hres); [| apply column_pure].
    all: apply bind_pure_inv in Hres as (cr & _ & Hres); [| apply column_pure].
    all: apply bind_pure_inv in Hres as (up & _ & Hres); [| apply column_pure].
    all: unfold bind in Hres; cbn in Hres; injection Hres as <- <-.
    all: eexists; cbn; rewrite lookup_insert_eq; split; [reflexivity |].
    all: split; reflexivity.
Qed.

(** X11. Once a read has returned a key, the read that follows
    returns the same key from the cache: its only call is the cache
    lookup. *)
Theorem cached_key_is_served_again guild_id w g :
  fst (get_guild_api_key lib E guild_id w) = Ok (Some g) ->
  get_guild_api_key lib E guild_id (snd (get_guild_api_key lib E guild_id w))
  = (Ok (Some g),
     Env.record_call (Env.CacheGet (api_key_cache_key guild_id))
       (snd (get_guild_api_key lib E guild_id w))).
Proof.
  intros Hres.
  destruct (get_guild_api_key_cached guild_id w g Hres) as (v & Hc & Hv & Hk).
  set (w1 := snd (get_guild_api_key lib E guild_id w)) in *.
  unfold get_guild_api_key at 1, bind at 1, E. cbn.
  rewrite Hc. cbn. rewrite Hv. unfold bind, lift_result. rewrite Hk. reflexivity.
Qed.
End CachedKeys.

(** ** Credentials that cannot be read *)

Section UnreadableExpiry.
Context (lib : PyLib) (f : Env.Fernet).
Let E := Env.environment f.

(** X13. A stored credential whose "expires_at" is not an ISO
    timestamp (a string [fromisoformat] rejects, or a value that is
    not a string) cannot be read: the read returns [None] and caches
    nothing. *)
Theorem unreadable_expiry_hides_credential
    guild_id wrapper created updated c text kvs bad w :
  Env.cache w !! api_key_cache_key guild_id = None ->
  Env.next_fault w = Env.Healthy ->
  Env.db w !! (guild_api_keys, guild_id, "")
  = Some (github_auth_row guild_id wrapper created updated) ->
  wrapper <> "" ->
  json_loads lib wrapper = Some (VDict [("data", VStr c)]) ->
  Env.decrypt f c = Some text ->
  json_loads lib text = Some (VDict kvs) ->
  dict_get "expires_at" kvs = Some bad ->
  match bad with
  | VStr s => fromisoformat lib s = None
  | _ => True
  end ->
  fst (get_guild_api_key lib E guild_id w) = Ok None
  /\ Env.cache (snd (get_guild_api_key lib E guild_id w)) = Env.cache w.
Proof.
  intros Hc Hf Hdb Hne Hlw Hdec Hlt Hexp Hbad.
  destruct w as [ca db fs clk tr]. cbn in Hc, Hf, Hdb.
  unfold get_guild_api_key, bind at 1, E. cbn. rewrite Hc. cbn.
  unfold try_except, bind at 1. cbn.
  destruct fs as [| [| | e] fs]; cbn in Hf; try discriminate.
  all: cbn; rewrite Hdb; cbn.
  all: apply String.eqb_neq in Hne; unfold populated; cbn; rewrite Hne; cbn.
  all: unfold bind, loads, decrypt_data, getitem; cbn.
  all: rewrite Hlw; cbn; unfold Env.fernet_decrypt; rewrite Hdec; cbn.
  all: rewrite Hlt; cbn.
  all: rewrite Hexp; cbn.
  all: destruct bad; cbn; try (split; reflexivity).
  all: rewrite Hbad; split; reflexivity.
Qed.
End UnreadableExpiry.

(** ** Containment in the relay *)

Section RelayContainment.
Import Relay.
Context {S : Type} (sm : SettingsManager S) (discord : Discord) (self_bot : Bot).

Lemma relay_outbox g key embed c :
  outbox (snd (relay sm discord self_bot g key embed c)) = outbox c
  \/ exists target,
       outbox (snd (relay sm discord self_bot g key embed c))
       = (outbox c ++ [{| sent_to := target; sent_view := embed;
                          sent_as := bot_name self_bot ++ " Logs" |}])%list.
Proof.
  unfold relay, _check_log_enabled, _send_log_embed, bind, on_settings.
  destruct (get_logging_webhook sm g (settings c)) as [[url | e] s1];
    [| left; reflexivity].
  destruct (truthy url); simpl; [| left; reflexivity].
  destruct (is_log_event_enabled sm g key true s1) as [[en | e] s2];
    [| left; reflexivity].
  simpl. destruct (truthy en); simpl; [| left; reflexivity].
  destruct (session c); simpl; try (left; reflexivity).
  destruct (get_logging_webhook sm g s2) as [[url' | e] s3];
    [| left; reflexivity].
  destruct (truthy url'); simpl; [| left; reflexivity].
  unfold try_except, webhook_send.
  destruct url'; simpl; try (left; reflexivity).
  destruct (from_url discord s); simpl; [| left; reflexivity].
  right. exists s. destruct (send_fails discord _ _); reflexivity.
Qed.

(** X14. For every settings manager and webhook client, an event
    makes at most one outbound call: the calls made before are kept,
    and the one added, if any, carries the notification of the event. *)
Theorem at_most_one_delivery ev c :
  outbox (snd (dispatch sm discord self_bot ev c)) = outbox c
  \/ exists target,
       outbox (snd (dispatch sm discord self_bot ev c))
       = (outbox c ++ [{| sent_to := target; sent_view := view_of self_bot ev;
                          sent_as := bot_name self_bot ++ " Logs" |}])%list.
Proof.
  destruct (relayed_for ev) as [g |] eqn:Hg.
  - rewrite (dispatch_relayed sm discord self_bot ev g Hg). apply relay_outbox.
  - rewrite (dispatch_dropped sm discord self_bot ev c Hg). left. reflexivity.
Qed.

Lemma relay_returns g key embed c :
  (forall s, returns (get_logging_webhook sm g) s) ->
  (forall s, returns (is_log_event_enabled sm g key true) s) ->
  relay sm discord self_bot g key embed c
  = (Ok tt, snd (relay sm discord self_bot g key embed c)).
Proof.
  intros Hw He.
  unfold relay, _check_log_enabled, _send_log_embed, bind, on_settings.
  destruct (Hw (settings c)) as [url Hurl].
  destruct (get_logging_webhook sm g (settings c)) as [r1 s1]. simpl in Hurl. subst r1.
  destruct (truthy url); simpl; [| reflexivity].
  destruct (He s1) as [en Hen].
  destruct (is_log_event_enabled sm g key true s1) as [r2 s2]. simpl in Hen. subst r2.
  simpl. destruct (truthy en); simpl; [| reflexivity].
  destruct (session c); simpl; try reflexivity.
  destruct (Hw s2) as [url' Hurl'].
  destruct (get_logging_webhook sm g s2) as [r3 s3]. simpl in Hurl'. subst r3.
  destruct (truthy url'); simpl; [| reflexivity].
  unfold try_except, webhook_send.
  destruct url'; simpl; try reflexivity.
  destruct (from_url discord s); simpl; [| reflexivity].
  destruct (send_fails discord _ _); reflexivity.
Qed.

(** X15. When the settings manager returns, the listener returns,
    whatever exception the webhook client raises. *)
Theorem delivery_failures_are_contained ev c :
  (forall g s, returns (get_logging_webhook sm g) s) ->
  (forall g key s, returns (is_log_event_enabled sm g key true) s) ->
  fst (dispatch sm discord self_bot ev c) = Ok tt.
Proof.
  intros Hw He.
  destruct (relayed_for ev) as [g |] eqn:Hg.
  - rewrite (dispatch_relayed sm discord self_bot ev g Hg).
    rewrite relay_returns by auto. reflexivity.
  - rewrite (dispatch_dropped sm discord self_bot ev c Hg). reflexivity.
Qed.

(** X16. An exception of the settings manager is not caught by the
    listener: raised by the lookup of the delivery target, or by the
    toggle check, it leaves the listener as it is, and no outbound
    call is made. *)
Theorem settings_failure_reaches_the_dispatcher ev c g :
  relayed_for ev = Some g ->
  (forall e s1, get_logging_webhook sm g (settings c) = (Raised e, s1) ->
     fst (dispatch sm discord self_bot ev c) = Raised e
     /\ outbox (snd (dispatch sm discord self_bot ev c)) = outbox c)
  /\ (forall url s1 e s2,
        get_logging_webhook sm g (settings c) = (Ok url, s1) ->
        truthy url = true ->
        is_log_event_enabled sm g (event_key ev) true s1 = (Raised e, s2) ->
        fst (dispatch sm discord self_bot ev c) = Raised e
        /\ outbox (snd (dispatch sm discord self_bot ev c)) = outbox c).
Proof.
  intros Hg. rewrite (dispatch_relayed sm discord self_bot ev g Hg).
  unfold relay, _check_log_enabled, bind, on_settings. split.
  - intros e s1 H. rewrite H. split; reflexivity.
  - intros url s1 e s2 H Ht H2. rewrite H, Ht. simpl. rewrite H2. split; reflexivity.
Qed.
End RelayContainment.

(** ** The toggle command *)

Section ToggleCommand.
Import Relay Commands.

(** X17. The key under which a listener files its event is one of
    [ALL_EVENT_KEYS], so the toggle command accepts it. *)
Theorem listener_keys_can_be_toggled (ev : event) :
  is_event_key (event_key ev) = true.
Proof. destruct ev; vm_compute; reflexivity. Qed.

Context (lib : PyLib) (f : Env.Fernet) (webhook_key : string)
  (lower : string -> string) (discord : Discord) (self_bot : Bot).
Let E := Env.environment f.
Let sm := store_settings lib f webhook_key.
Let sw := store_writer f.

Section OneGuild.
Context (guild_id : Z) (url : string) (key : string).

Let ready := target_ready lib webhook_key guild_id url.
Let toggle_is (b : bool) (w : Env.world) : Prop :=
  Env.db w !! (log_event_toggles, guild_id, key)
  = Some (toggle_row guild_id key b).

Lemma no_faults_healthy w :
  Env.faults w = [] ->
  Env.next_fault w = Env.Healthy /\ Env.faults (Env.pop_fault w) = [].
Proof. destruct w as [c d fs clk tr]. simpl. intros ->. split; reflexivity. Qed.

Lemma sm_target w :
  ready w ->
  exists w',
    get_logging_webhook sm guild_id w = (Ok (VStr url), w')
    /\ ready w' /\ Env.db w' = Env.db w.
Proof.
  intros [Hfs Hcase]. destruct (no_faults_healthy w Hfs) as [Hf Hfs1].
  unfold sm, store_settings, get_logging_webhook, get_guild_setting.
  destruct Hcase as [Hwarm | (Hmiss & r & text & Hdb & Hr & Hl)].
  - rewrite (get_value_cache_hit lib f "guild_setting" guild_settings guild_id
               webhook_key VNone w (VStr url) Hwarm) by discriminate.
    eexists. split; [reflexivity |]. split; [| reflexivity].
    split; [exact Hfs | left; exact Hwarm].
  - destruct w as [c d fs clk tr]; cbn in *. subst fs.
    unfold get_value, bind, try_except; cbn. rewrite Hmiss; cbn.
    rewrite Hdb; cbn. unfold Env.project; cbn. rewrite Hr; cbn.
    unfold bind, try_except; cbn. rewrite Hl; cbn.
    eexists. split; [reflexivity |]. split; [| reflexivity].
    split; [reflexivity |]. left. cbn. apply lookup_insert_eq.
Qed.

Lemma sm_enabled b w :
  ready w -> toggle_is b w ->
  exists w',
    is_log_event_enabled sm guild_id key true w = (Ok (VBool b), w')
    /\ ready w' /\ toggle_is b w'.
Proof.
  intros [Hfs Hcase] Ht. destruct (no_faults_healthy w Hfs) as [Hf Hfs1].
  unfold sm, store_settings, is_log_event_enabled.
  rewrite get_log_event_enabled_run, Hf. unfold toggle_is in Ht. rewrite Ht.
  eexists. split; [reflexivity |]. split; [| exact Ht].
  split; [exact Hfs1 | exact Hcase].
Qed.

Lemma sw_set b w :
  ready w ->
  exists w',
    sm_set_log_event_enabled sw guild_id key b w = (Ok (VBool true), w')
    /\ ready w' /\ toggle_is b w'.
Proof.
  intros [Hfs Hcase]. destruct (no_faults_healthy w Hfs) as [Hf Hfs1].
  unfold sw, store_writer, sm_set_log_event_enabled, bind.
  rewrite set_log_event_enabled_run, Hf. cbv zeta.
  eexists. split; [reflexivity |]. split.
  - split; [exact Hfs1 |].
    destruct Hcase as [Hwarm | (Hmiss & r & text & Hdb & Hr & Hl)];
      [left; exact Hwarm | right].
    split; [exact Hmiss |]. exists r, text. split; [| auto].
    cbn. rewrite lookup_insert_ne by discriminate. exact Hdb.
  - unfold toggle_is. cbn. apply lookup_insert_eq.
Qed.

Lemma log_toggle_sets raw b c rs :
  lower raw = key -> is_event_key key = true -> ready (settings c) ->
  exists c',
    cog_state (snd (log_toggle sm sw lower guild_id raw (Some b)
                      {| cog_state := c; replies := rs |})) = c'
    /\ ready (settings c') /\ toggle_is b (settings c')
    /\ session c' = session c /\ outbox c' = outbox c.
Proof.
  intros Hlow Hkey Hready.
  destruct (sw_set b (settings c) Hready) as (w' & Hset & Hready' & Ht).
  unfold log_toggle. rewrite Hlow, Hkey. cbn [negb].
  unfold bind, ret, in_cog, on_settings. cbn [cog_state settings].
  rewrite Hset. cbn. eexists. split; [reflexivity |]. cbn. auto.
Qed.

Lemma log_toggle_flips raw b c rs :
  lower raw = key -> is_event_key key = true -> ready (settings c) ->
  toggle_is b (settings c) ->
  exists c',
    cog_state (snd (log_toggle sm sw lower guild_id raw None
                      {| cog_state := c; replies := rs |})) = c'
    /\ ready (settings c') /\ toggle_is (negb b) (settings c')
    /\ session c' = session c /\ outbox c' = outbox c.
Proof.
  intros Hlow Hkey Hready Ht.
  destruct (sm_enabled b (settings c) Hready Ht) as (w1 & Hget & Hready1 & Ht1).
  destruct (sw_set (negb b) w1 Hready1) as (w' & Hset & Hready' & Ht').
  unfold log_toggle. rewrite Hlow, Hkey. cbn [negb].
  unfold bind, ret, in_cog, on_settings. cbn [cog_state settings].
  rewrite Hget. cbn [cog_state settings truthy]. rewrite Hset.
  cbn. eexists. split; [reflexivity |]. cbn. auto.
Qed.

Lemma relay_quiet_run embed c w1 w2 :
  url <> "" ->
  get_logging_webhook sm guild_id (settings c) = (Ok (VStr url), w1) ->
  is_log_event_enabled sm guild_id key true w1 = (Ok (VBool false), w2) ->
  relay sm discord self_bot guild_id key embed c
  = (Ok tt, {| settings := w2; session := session c; outbox := outbox c |}).
Proof.
  intros Hne Hu He. apply String.eqb_neq in Hne.
  unfold relay, _check_log_enabled, bind, on_settings.
  rewrite Hu. cbv beta iota. unfold truthy at 1. rewrite Hne.
  cbv beta iota delta [negb settings]. rewrite He. reflexivity.
Qed.
End OneGuild.

End ToggleCommand.

(** ** Flipping a toggle *)

Section ToggleFlip.
Import Relay Commands.
Context (lib : PyLib) (f : Env.Fernet) (webhook_key : string)
  (lower : string -> string).
Let E := Env.environment f.
Let sm := store_settings lib f webhook_key.
Let sw := store_writer f.

End ToggleFlip.

(** ** Global bans, user data and appeals on any store *)

Section ModerationOnAnyStore.
Import Moderation.
Context {W : Type} (lib : PyLib) (store : Store W) (appeals : AppealStore W)
  (PENDING : string).

(** X20. Whatever the store, the identifier source and the clock do,
    the accessors of global bans, user data and appeals return. *)
Theorem moderation_accessors_contain_exceptions
    user_id reason banned_by field value data text appeal_id status infraction w :
  returns (add_global_ban store user_id reason banned_by) w
  /\ returns (remove_global_ban store user_id) w
  /\ returns (is_globally_banned store user_id) w
  /\ returns (get_all_global_bans store) w
  /\ returns (get_user_data lib store user_id) w
  /\ returns (set_user_data lib store user_id data) w
  /\ returns (update_user_data_field lib store user_id field value) w
  /\ returns (delete_user_data store user_id) w
  /\ returns (create_appeal lib appeals PENDING user_id text infraction) w
  /\ returns (get_appeal lib appeals appeal_id) w
  /\ returns (update_appeal_status appeals appeal_id status) w
  /\ returns (get_user_appeals lib appeals user_id) w.
Proof.
  repeat split; apply try_except_returns; intros; apply ret_returns.
Qed.

Lemma parse_appeals_malformed rows (w : W) :
  Exists (malformed lib) rows ->
  exists e w', parse_appeals lib rows w = (Raised e, w').
Proof.
  intros Hex. revert w. induction Hex as [r rows Hr | r rows Hex IH]; intros w.
  - destruct Hr as (v & Hv & Ht & Hl).
    simpl. unfold bind at 1, parse_appeal, bind at 1, column. rewrite Hv.
    unfold ret at 1. rewrite Ht. unfold bind at 1, loads.
    destruct v; try (do 2 eexists; reflexivity).
    rewrite Hl. do 2 eexists; reflexivity.
  - simpl. unfold bind at 1.
    destruct (parse_appeal lib r w) as [[a | e] w1] eqn:Hp; [| eauto].
    unfold bind at 1.
    destruct (IH w1) as (e & w' & He). rewrite He. eauto.
Qed.

(** X21. When one of the appeals the store lists for a user has an
    "original_infraction" that does not parse, [get_user_appeals]
    returns the empty list. *)
Theorem one_malformed_appeal_hides_all user_id rows w w1 :
  fetch_appeals appeals (select_user_appeals user_id) w = (Ok (Some rows), w1) ->
  Exists (malformed lib) rows ->
  fst (get_user_appeals lib appeals user_id w) = Ok [].
Proof.
  intros Hq Hex. unfold get_user_appeals, try_except, bind at 1. rewrite Hq.
  destruct (parse_appeals_malformed rows w1 Hex) as (e & w' & He).
  rewrite He. reflexivity.
Qed.
End ModerationOnAnyStore.

(** ** Global bans on the reference store *)

Section GlobalBans.
Import Moderation.
Context (lib : PyLib).
Let S := ModEnv.store.

Lemma add_global_ban_run user_id reason banned_by w :
  add_global_ban S user_id reason banned_by w
  = match ModEnv.next_fault w with
    | Env.Healthy =>
        (Ok true, ModEnv.ban user_id reason banned_by (ModEnv.pop_fault w))
    | Env.Unavailable => (Ok true, ModEnv.pop_fault w)
    | Env.Crash e => (Ok false, ModEnv.pop_fault w)
    end.
Proof.
  unfold add_global_ban, try_except, bind, S; cbn.
  unfold ModEnv.execute_query. destruct (ModEnv.next_fault w); reflexivity.
Qed.

Lemma is_globally_banned_run user_id w :
  is_globally_banned S user_id w
  = (Ok match ModEnv.next_fault w with
        | Env.Healthy => ModEnv.banned user_id w
        | _ => false
        end,
     ModEnv.pop_fault w).
Proof.
  unfold is_globally_banned, try_except, bind, S; cbn.
  unfold ModEnv.execute_query_one.
  destruct (ModEnv.next_fault w); try reflexivity.
  cbn. destruct (ModEnv.banned user_id w); reflexivity.
Qed.

Lemma remove_global_ban_run user_id w :
  remove_global_ban S user_id w
  = match ModEnv.next_fault w with
    | Env.Healthy =>
        (Ok true,
         ModEnv.with_bans (filter (fun b : Z * row => fst b <> user_id))
           (ModEnv.pop_fault w))
    | _ => (Ok false, ModEnv.pop_fault w)
    end.
Proof.
  unfold remove_global_ban, try_except, S; cbn.
  unfold ModEnv.delete_record. destruct (ModEnv.next_fault w); reflexivity.
Qed.

Lemma banned_pop_fault u w : ModEnv.banned u (ModEnv.pop_fault w) = ModEnv.banned u w.
Proof. reflexivity. Qed.

Lemma banned_ban u r b w : ModEnv.banned u (ModEnv.ban u r b w) = true.
Proof.
  unfold ModEnv.ban. destruct (ModEnv.banned u w) eqn:Hb; [exact Hb |].
  unfold ModEnv.banned. simpl. rewrite Z.eqb_refl. reflexivity.
Qed.

Lemma banned_In u w : ModEnv.banned u w = true <-> In u (map fst (ModEnv.bans w)).
Proof.
  unfold ModEnv.banned. rewrite existsb_exists, in_map_iff. split.
  - intros (b & Hin & Hb). apply Z.eqb_eq in Hb. eauto.
  - intros (b & Hb & Hin). exists b. split; [exact Hin |]. apply Z.eqb_eq. exact Hb.
Qed.

Lemma banned_filter u (l : list (Z * row)) :
  existsb (fun b : Z * row => fst b =? u) (filter (fun b : Z * row => fst b <> u) l)
  = false.
Proof.
  induction l as [| b l IH]; [reflexivity |].
  rewrite filter_cons. destruct (decide (fst b <> u)) as [Hne | Heq]; [| exact IH].
  simpl. rewrite IH. apply Z.eqb_neq in Hne. rewrite Hne. reflexivity.
Qed.


(** X23. When the store refuses the query or raises,
    [is_globally_banned] returns [False], banned or not. *)
Theorem ban_check_fails_open user_id w :
  ModEnv.next_fault w <> Env.Healthy ->
  fst (is_globally_banned S user_id w) = Ok false.
Proof.
  intros Hf. rewrite is_globally_banned_run. cbn.
  destruct (ModEnv.next_fault w); [contradiction | reflexivity | reflexivity].
Qed.

(** X24. After [remove_global_ban] has returned [True], the user
    reads as not banned, however the store answers. *)
Theorem removed_ban_is_gone user_id w :
  fst (remove_global_ban S user_id w) = Ok true ->
  fst (is_globally_banned S user_id (snd (remove_global_ban S user_id w)))
  = Ok false.
Proof.
  rewrite remove_global_ban_run.
  destruct (ModEnv.next_fault w); cbn [fst snd]; try discriminate.
  intros _. rewrite is_globally_banned_run. cbn [fst].
  unfold ModEnv.banned. cbn. rewrite banned_filter.
  destruct (ModEnv.next_fault _); reflexivity.
Qed.

Lemma user_ids_run (bs : list (Z * row)) (w : ModEnv.world) :
  user_ids (map (fun b : Z * row => [("user_id", VInt (fst b))]) bs) w
  = (Ok (map (fun b : Z * row => VInt (fst b)) bs), w).
Proof.
  induction bs as [| b bs IH]; [reflexivity |].
  simpl. unfold bind at 1, column. simpl. unfold ret at 1.
  unfold bind at 1. rewrite IH. reflexivity.
Qed.

Lemma get_all_global_bans_healthy w :
  ModEnv.next_fault w = Env.Healthy ->
  fst (get_all_global_bans S w)
  = Ok (map (fun b : Z * row => VInt (fst b)) (ModEnv.bans w)).
Proof.
  intros Hf. unfold get_all_global_bans, try_except, bind, S; cbn.
  unfold ModEnv.execute_query_all. rewrite Hf. cbn.
  rewrite user_ids_run. reflexivity.
Qed.

Lemma NoDup_ban u r b w :
  List.NoDup (map fst (ModEnv.bans w)) -> List.NoDup (map fst (ModEnv.bans (ModEnv.ban u r b w))).
Proof.
  intros Hnd. unfold ModEnv.ban.
  destruct (ModEnv.banned u w) eqn:Hb; [exact Hnd |].
  cbn. constructor; [| exact Hnd].
  intros Hin. apply banned_In in Hin. congruence.
Qed.

Lemma NoDup_map_VInt (l : list Z) : List.NoDup l -> List.NoDup (map VInt l).
Proof.
  induction 1 as [| x l Hx Hnd IH]; simpl; constructor; [| exact IH].
  intros Hin. apply in_map_iff in Hin as (y & [= ->] & Hy). contradiction.
Qed.

End GlobalBans.

(** ** User data on the reference store *)

Section UserData.
Import Moderation.
Context (lib : PyLib).
Let S := ModEnv.store.

Lemma set_user_data_run user_id data text w :
  json_dumps lib data = Some text ->
  set_user_data lib S user_id data w
  = match ModEnv.next_fault w with
    | Env.Healthy =>
        (Ok true,
         ModEnv.with_documents <[user_id := user_data_row user_id text]>
           (ModEnv.pop_fault w))
    | _ => (Ok false, ModEnv.pop_fault w)
    end.
Proof.
  intros Hd. unfold set_user_data, try_except, bind, dumps, S. rewrite Hd. cbn.
  unfold ModEnv.insert_or_update. destruct (ModEnv.next_fault w); reflexivity.
Qed.

Lemma get_user_data_stored user_id text data w :
  ModEnv.next_fault w = Env.Healthy ->
  ModEnv.documents w !! user_id = Some (user_data_row user_id text) ->
  text <> "" ->
  json_loads lib text = Some data ->
  get_user_data lib S user_id w = (Ok data, ModEnv.pop_fault w).
Proof.
  intros Hf Hdoc Hne Hl. apply String.eqb_neq in Hne.
  unfold get_user_data, try_except, bind, S; cbn.
  unfold ModEnv.execute_query_one. rewrite Hf. cbn. rewrite Hdoc. cbn.
  rewrite Hne. cbn. unfold loads. rewrite Hl. reflexivity.
Qed.

Lemma get_user_data_unanswered user_id w :
  ModEnv.next_fault w <> Env.Healthy ->
  get_user_data lib S user_id w = (Ok (VDict []), ModEnv.pop_fault w).
Proof.
  intros Hf. unfold get_user_data, try_except, bind, S; cbn.
  unfold ModEnv.execute_query_one.
  destruct (ModEnv.next_fault w); [contradiction | reflexivity | reflexivity].
Qed.

Lemma healthy_forever w :
  ModEnv.faults w = [] ->
  ModEnv.next_fault w = Env.Healthy
  /\ ModEnv.faults (ModEnv.pop_fault w) = [].
Proof.
  destruct w as [bs ds fs clk]. simpl. intros ->. split; reflexivity.
Qed.

(** X26. User data that survives JSON serialisation is read back
    as it was written, once the write has succeeded and the store
    answers the read. *)
Theorem user_data_round_trip user_id data text w :
  json_dumps lib data = Some text ->
  json_loads lib text = Some data ->
  text <> "" ->
  fst (set_user_data lib S user_id data w) = Ok true ->
  ModEnv.next_fault (snd (set_user_data lib S user_id data w)) = Env.Healthy ->
  fst (get_user_data lib S user_id (snd (set_user_data lib S user_id data w)))
  = Ok data.
Proof.
  intros Hd Hl Hne. rewrite (set_user_data_run user_id data text w Hd).
  destruct (ModEnv.next_fault w); cbn [fst snd]; try discriminate.
  intros _ Hf.
  erewrite get_user_data_stored; eauto.
  cbn. apply lookup_insert_eq.
Qed.


(** X28. When the store fails the read of [update_user_data_field]
    and executes its write, the update succeeds and the stored
    document is the object of the one field alone, whatever was
    stored before. *)
Theorem update_after_failed_read_overwrites user_id field value text' w :
  ModEnv.next_fault w <> Env.Healthy ->
  ModEnv.next_fault (ModEnv.pop_fault w) = Env.Healthy ->
  json_dumps lib (VDict [(field, value)]) = Some text' ->
  fst (update_user_data_field lib S user_id field value w) = Ok true
  /\ ModEnv.documents (snd (update_user_data_field lib S user_id field value w))
     !! user_id = Some (user_data_row user_id text').
Proof.
  intros Hf Hf1 Hd'.
  assert (Hrun : update_user_data_field lib S user_id field value w
    = (Ok true,
       ModEnv.with_documents <[user_id := user_data_row user_id text']>
         (ModEnv.pop_fault (ModEnv.pop_fault w)))).
  { unfold update_user_data_field, try_except, bind at 1.
    rewrite (get_user_data_unanswered user_id w Hf).
    unfold bind at 1, setitem, ret at 1. cbn [dict_set].
    fold S. rewrite (set_user_data_run user_id _ text' _ Hd'), Hf1. reflexivity. }
  rewrite Hrun. cbn [fst snd]. split; [reflexivity |]. cbn. apply lookup_insert_eq.
Qed.

End UserData.

(** ** The further properties at concrete inputs *)

Section MoreWitnesses.
Import Relay Commands Moderation Examples MoreExamples.

Lemma warm_read_skips_store_witness :
  get_in lib RefLib.fernet config 7 "policy" VNone cached_policy
  = (Ok document,
     Env.record_call (Env.CacheGet (cache_key (prefix_of config) 7 "policy"))
       cached_policy).
Proof.
  apply (warm_read_skips_store lib RefLib.fernet config 7 "policy" VNone
           document cached_policy); [reflexivity | discriminate].
Defined.

Lemma store_hit_fills_cache_witness :
  fst (get_in lib RefLib.fernet config 7 "policy" VNone stored_policy)
  = Ok document
  /\ Env.cache (snd (get_in lib RefLib.fernet config 7 "policy" VNone stored_policy))
     = <[cache_key (prefix_of config) 7 "policy" := document]>
         (Env.cache stored_policy)
  /\ get_in lib RefLib.fernet config 7 "policy" VNone
       (snd (get_in lib RefLib.fernet config 7 "policy" VNone stored_policy))
     = (Ok document,
        Env.record_call (Env.CacheGet (cache_key (prefix_of config) 7 "policy"))
          (snd (get_in lib RefLib.fernet config 7 "policy" VNone stored_policy))).
Proof.
  destruct (store_hit_fills_cache lib RefLib.fernet config 7 "policy" VNone
              [("guild_id", VInt 7); ("key", VStr "policy");
               ("value", VStr document_text)]
              document_text document stored_policy)
    as (Hread & Hcache & Hnext); try (vm_compute; reflexivity).
  split; [exact Hread |]. split; [exact Hcache |].
  apply Hnext. discriminate.
Defined.

Lemma cached_none_is_a_miss_witness :
  exists rest,
    Env.trace (snd (get_in lib RefLib.fernet config 7 "policy" VNone cached_null))
    = (Env.trace cached_null
       ++ Env.CacheGet (cache_key (prefix_of config) 7 "policy")
          :: Env.Query (select_value (table_of config) 7 "policy") :: rest)%list.
Proof.
  apply (cached_none_is_a_miss lib RefLib.fernet config 7 "policy" VNone
           cached_null).
  vm_compute. reflexivity.
Defined.


Lemma unserialisable_value_is_not_written_witness :
  set_guild_config lib E 7 "since" (VDatetime noon) fresh = (Ok false, fresh)
  /\ set_guild_setting lib E 7 "since" (VDatetime noon) fresh = (Ok false, fresh)
  /\ set_botdetect_config lib E 7 "since" (VDatetime noon) fresh
     = (Ok false, fresh).
Proof.
  apply (unserialisable_value_is_not_written lib E 7 "since" (VDatetime noon)
           fresh).
  reflexivity.
Defined.

Lemma listing_parses_each_row_witness :
  get_all_guild_config lib E 7 two_settings
  = (Ok (VDict (map (fun kv => (fst kv, parsed lib (snd kv))) two_settings_listed)),
     snd (Env.execute_query_all (select_key_value guild_config 7) two_settings)).
Proof.
  apply (listing_parses_each_row lib E 7 two_settings_listed two_settings
           (snd (Env.execute_query_all (select_key_value guild_config 7)
                   two_settings))).
  - vm_compute. repeat constructor; simpl; intuition discriminate.
  - vm_compute. reflexivity.
Defined.

Lemma toggle_set_then_get_witness :
  fst (get_log_event_enabled E 7 "member_join" false
         (snd (set_log_event_enabled E 7 "member_join" true toggled_off)))
  = Ok (VBool true).
Proof.
  apply (toggle_set_then_get RefLib.fernet true 7 "member_join" false
           toggled_off); reflexivity.
Defined.

Lemma toggle_read_fails_open_witness :
  fst (get_log_event_enabled E 7 "message_delete" true
         (Env.mk_world ∅ (Env.db toggled_off) [Env.Unavailable]
            (VDatetime noon) []))
  = Ok (VBool true).
Proof.
  apply (toggle_read_fails_open RefLib.fernet 7 "message_delete" true).
  discriminate.
Defined.

Lemma plain_key_round_trip_witness :
  exists g,
    fst (get_guild_api_key lib E 7
           (snd (set_guild_api_key lib E 7 "openai" (VStr secret) warm)))
    = Ok (Some g)
    /\ key_guild_id g = VInt 7
    /\ key_api_provider g = VStr "openai"
    /\ key_api_key g = VStr secret
    /\ key_github_auth_info g = VNone.
Proof.
  apply (plain_key_round_trip lib RefLib.fernet 7 "openai" secret secret_token
           warm);
    first [discriminate | vm_compute; reflexivity].
Defined.

Lemma cached_key_is_served_again_witness :
  exists g,
    fst (get_guild_api_key lib E 7
           (snd (set_guild_api_key lib E 7 "openai" (VStr secret) fresh)))
    = Ok (Some g)
    /\ get_guild_api_key lib E 7
         (snd (get_guild_api_key lib E 7
                 (snd (set_guild_api_key lib E 7 "openai" (VStr secret) fresh))))
       = (Ok (Some g),
          Env.record_call (Env.CacheGet (api_key_cache_key 7))
            (snd (get_guild_api_key lib E 7
                    (snd (set_guild_api_key lib E 7 "openai" (VStr secret)
                            fresh))))).
Proof.
  eexists. split; [vm_compute; reflexivity |].
  apply (cached_key_is_served_again lib RefLib.fernet 7).
  vm_compute. reflexivity.
Defined.

Lemma removed_key_reads_as_absent_witness :
  fst (get_guild_api_key lib E 7 (snd (remove_guild_api_key E 7 corrupted)))
  = Ok None.
Proof.
  apply (removed_key_reads_as_absent lib RefLib.fernet 7 corrupted).
  reflexivity.
Defined.

Lemma unreadable_expiry_hides_credential_witness :
  fst (get_guild_api_key lib E 7 with_epoch_credential) = Ok None
  /\ Env.cache (snd (get_guild_api_key lib E 7 with_epoch_credential))
     = Env.cache with_epoch_credential.
Proof.
  apply (unreadable_expiry_hides_credential lib RefLib.fernet 7 epoch_wrapper
           (VDatetime noon) (VDatetime noon) epoch_token epoch_text
           epoch_credential (VInt 1767268800) with_epoch_credential);
    first [discriminate | exact I | vm_compute; reflexivity].
Defined.

Lemma manager_returns :
  (forall g s, returns (get_logging_webhook manager g) s)
  /\ (forall g key s, returns (is_log_event_enabled manager g key true) s).
Proof.
  split.
  - intros g s. apply get_value_returns. eexists. reflexivity.
  - intros g key s. apply try_except_returns. intros. apply ret_returns.
Defined.

Lemma delivery_failures_are_contained_witness :
  fst (dispatch manager failing_client openguard (message_delete deleted)
         (cog_on with_target SessionOpen)) = Ok tt
  /\ length (outbox (snd (dispatch manager failing_client openguard
                            (message_delete deleted)
                            (cog_on with_target SessionOpen)))) = 1%nat.
Proof.
  split.
  - apply (delivery_failures_are_contained manager failing_client openguard
             (message_delete deleted) (cog_on with_target SessionOpen)
             (proj1 manager_returns) (proj2 manager_returns)).
  - vm_compute. reflexivity.
Defined.

Lemma settings_failure_reaches_the_dispatcher_witness :
  (fst (dispatch unreachable client openguard (member_join alice)
          {| settings := tt; session := SessionOpen; outbox := [] |})
   = Raised (StoreError "unreachable")
   /\ outbox (snd (dispatch unreachable client openguard (member_join alice)
                     {| settings := tt; session := SessionOpen; outbox := [] |}))
      = [])
  /\ (fst (dispatch toggles_unreadable client openguard (member_join alice)
             {| settings := tt; session := SessionOpen; outbox := [] |})
      = Raised (StoreError "unreachable")
      /\ outbox (snd (dispatch toggles_unreadable client openguard
                        (member_join alice)
                        {| settings := tt; session := SessionOpen; outbox := [] |}))
         = []).
Proof.
  split.
  - apply (settings_failure_reaches_the_dispatcher unreachable client openguard
             (member_join alice)
             {| settings := tt; session := SessionOpen; outbox := [] |} 7
             eq_refl)
      with (s1 := tt).
    reflexivity.
  - apply (settings_failure_reaches_the_dispatcher toggles_unreadable client
             openguard (member_join alice)
             {| settings := tt; session := SessionOpen; outbox := [] |} 7
             eq_refl)
      with (url := VStr webhook_url) (s1 := tt) (s2 := tt); reflexivity.
Defined.

Lemma with_target_ready :
  target_ready lib webhook_key 7 webhook_url
    (settings (cog_on with_target SessionOpen)).
Proof. split; [reflexivity |]. left. vm_compute. reflexivity. Defined.



Lemma one_malformed_appeal_hides_all_witness :
  fst (get_user_appeals lib canned_appeals 42 two_appeals) = Ok [].
Proof.
  apply (one_malformed_appeal_hides_all lib canned_appeals 42 two_appeals
           two_appeals two_appeals).
  - reflexivity.
  - apply Exists_cons_tl, Exists_cons_hd.
    exists (VStr "{oops"). repeat split; reflexivity.
Defined.


Lemma ban_check_fails_open_witness :
  ModEnv.banned 42 one_ban_store_down = true
  /\ fst (is_globally_banned ModEnv.store 42 one_ban_store_down) = Ok false.
Proof.
  split; [reflexivity |].
  apply (ban_check_fails_open 42 one_ban_store_down). discriminate.
Defined.

Lemma removed_ban_is_gone_witness :
  fst (is_globally_banned ModEnv.store 42
         (snd (remove_global_ban ModEnv.store 42 one_ban)))
  = Ok false.
Proof.
  apply (removed_ban_is_gone 42 one_ban). reflexivity.
Defined.


Lemma user_data_round_trip_witness :
  fst (get_user_data lib ModEnv.store 42
         (snd (set_user_data lib ModEnv.store 42 profile no_bans)))
  = Ok profile.
Proof.
  apply (user_data_round_trip lib 42 profile profile_text no_bans);
    first [discriminate | vm_compute; reflexivity].
Defined.


Lemma update_after_failed_read_overwrites_witness :
  ModEnv.documents with_profile_read_failing !! 42
  = Some (user_data_row 42 profile_text)
  /\ fst (update_user_data_field lib ModEnv.store 42 "karma" (VInt 4)
            with_profile_read_failing) = Ok true
  /\ ModEnv.documents
       (snd (update_user_data_field lib ModEnv.store 42 "karma" (VInt 4)
               with_profile_read_failing))
     !! 42
     = Some (user_data_row 42 karma_only_text).
Proof.
  split; [vm_compute; reflexivity |].
  apply (update_after_failed_read_overwrites lib 42 "karma" (VInt 4)
           karma_only_text with_profile_read_failing);
    first [discriminate | vm_compute; reflexivity].
Defined.

End MoreWitnesses.
